(** * query_tcga: filter construction, validation, manifest paging, download check

    A shallow embedding of [query_tcga/query_tcga.py].  Python values are an
    inductive type, exceptions are the error side of a [result], the GDC
    server, the file system and the gdc-client executable are oracles
    collected in records.  Strings are Rocq strings: one [ascii] stands for
    one code point below 256. *)

From Stdlib Require Import ZArith List String Ascii Bool Lia.
Import ListNotations.
Local Open Scope string_scope.
Local Open Scope Z_scope.

(** ** Exceptions and the error monad *)

Inductive exn : Type :=
| ValueError (msg : string)
| TypeError
| IndexError
| KeyError
| HTTPError (status : Z)
| OSError
| CalledProcessError (returncode : Z).

Inductive result (A : Type) : Type :=
| Ok (a : A)
| Raise (e : exn).
Arguments Ok {A} a.
Arguments Raise {A} e.

Definition bind {A B : Type} (r : result A) (k : A -> result B) : result B :=
  match r with
  | Ok a => k a
  | Raise e => Raise e
  end.

Declare Scope py_scope.
Delimit Scope py_scope with py.
Notation "x <- e ;; k" := (bind e (fun x => k))
  (at level 61, e at next level, right associativity) : py_scope.
Notation "e ;;; k" := (bind e (fun _ => k))
  (at level 61, right associativity) : py_scope.
Local Open Scope py_scope.

(** ** Python values

    The values the embedding covers: None, bools, ints, strings, lists and
    tuples.  Other objects (dicts, sets, bytes, ranges, iterators, floats)
    are outside it: nothing is stated about a call that is given one. *)

#[warnings="-register-all"]
Inductive pyval : Type :=
| PNone
| PBool (b : bool)
| PInt (n : Z)
| PStr (s : string)
| PList (l : list pyval)
| PTuple (l : list pyval).

(** [bool(x)]: what [not(x)] and [if x:] test. *)
Definition truthy (x : pyval) : bool :=
  match x with
  | PNone => false
  | PBool b => b
  | PInt n => negb (n =? 0)
  | PStr s => negb (s =? "")%string
  | PList l => match l with [] => false | _ => true end
  | PTuple l => match l with [] => false | _ => true end
  end.

(** [a == b]; a bool compares as the int 0 or 1. *)
Fixpoint py_eq (a b : pyval) : bool :=
  let fix all_eq (l l' : list pyval) : bool :=
    match l, l' with
    | [], [] => true
    | x :: xs, y :: ys => py_eq x y && all_eq xs ys
    | _, _ => false
    end in
  match a, b with
  | PNone, PNone => true
  | PBool x, PBool y => Bool.eqb x y
  | PBool x, PInt n => Z.b2z x =? n
  | PInt n, PBool x => n =? Z.b2z x
  | PInt m, PInt n => m =? n
  | PStr s, PStr t => (s =? t)%string
  | PList l, PList l' => all_eq l l'
  | PTuple l, PTuple l' => all_eq l l'
  | _, _ => false
  end.

(** [el in allowed_values] for a sequence of values. *)
Definition py_in (el : pyval) (allowed_values : list pyval) : bool :=
  existsb (fun item => py_eq item el) allowed_values.

(** [iter(x)]: the elements a [for] loop or a generator visits. *)
Definition py_iter (x : pyval) : result (list pyval) :=
  match x with
  | PList l => Ok l
  | PTuple l => Ok l
  | PStr s => Ok (map (fun c => PStr (String c "")) (list_ascii_of_string s))
  | PNone | PBool _ | PInt _ => Raise TypeError
  end.

(** ** String helpers: [str.join], [str.find], [str.replace], [str.splitlines] *)

Definition LF : string := String (ascii_of_nat 10) "".
Definition TAB : string := String (ascii_of_nat 9) "".

Fixpoint str_join (sep : string) (l : list string) : string :=
  match l with
  | [] => ""
  | [s] => s
  | s :: rest => s ++ sep ++ str_join sep rest
  end.

(** [sep.join(values)] raises TypeError at an item that is not a str. *)
Fixpoint as_strs (l : list pyval) : result (list string) :=
  match l with
  | [] => Ok []
  | PStr s :: rest => ss <- as_strs rest ;; Ok (s :: ss)
  | _ :: _ => Raise TypeError
  end.

Definition py_join (sep : string) (values : list pyval) : result string :=
  ss <- as_strs values ;; Ok (str_join sep ss).

(** [s.find(sub)] counted from [i]: lowest index of an occurrence, or -1. *)
Fixpoint find_from (i : Z) (sub s : string) : Z :=
  if prefix sub s then i
  else match s with
       | "" => -1
       | String _ s' => find_from (i + 1) sub s'
       end.

Definition str_find (s sub : string) : Z := find_from 0 sub s.

(** [s.replace(old, new)] for a non-empty [old]: occurrences are taken left
    to right and do not overlap; [skip] counts the characters of a matched
    occurrence still to be dropped. *)
Fixpoint replace_skip (skip : nat) (old new s : string) : string :=
  match s with
  | "" => ""
  | String c s' =>
      match skip with
      | S k => replace_skip k old new s'
      | O => if prefix old s
             then new ++ replace_skip (Nat.pred (String.length old)) old new s'
             else String c (replace_skip O old new s')
      end
  end.

Definition str_replace (s old new : string) : string := replace_skip O old new s.

(** Line boundaries of [str.splitlines] among the code points below 256:
    LF, VT, FF, CR, FS, GS, RS and NEL. *)
Definition is_linebreak (c : ascii) : bool :=
  existsb (N.eqb (N_of_ascii c)) [10; 11; 12; 13; 28; 29; 30; 133]%N.

Definition is_CR (c : ascii) : bool := (N_of_ascii c =? 13)%N.
Definition is_LF (c : ascii) : bool := (N_of_ascii c =? 10)%N.

(** [splitlines_from line s]: [line] is the text read since the last
    boundary; CR followed by LF is one boundary; no empty last line. *)
Fixpoint splitlines_from (line s : string) : list string :=
  match s with
  | "" => if (line =? "")%string then [] else [line]
  | String c s' =>
      if is_linebreak c then
        line :: match s' with
                | String c' s'' =>
                    if is_CR c && is_LF c' then splitlines_from "" s''
                    else splitlines_from "" s'
                | "" => splitlines_from "" s'
                end
      else splitlines_from (line ++ String c "") s'
  end.

Definition splitlines (s : string) : list string := splitlines_from "" s.

(** ** Module constants *)

Definition GDC_TOKEN_PATH : string :=
  "/Users/jacquelineburos/Downloads/gdc-user-token.2016-09-12T16-39-34-04-00.txt".
Definition GDC_CLIENT_PATH : string := "/usr/local/bin/gdc-client".
Definition GDC_DATA_DIR : string := "data/gdc".
Definition VALID_ENDPOINTS : list pyval :=
  [PStr "files"; PStr "projects"; PStr "cases"; PStr "annotations"].

(** ** Filter expressions

    The nested dicts [{"op": "in", "content": {"field": f, "value": v}}] and
    [{"op": "and", "content": [...]}]. *)

#[warnings="-register-all"]
Inductive filter_expr : Type :=
| FIn (field : string) (value : pyval)
| FAnd (content : list filter_expr).

(** ** The server

    Each request is a function of its parameters: what [requests.get],
    [raise_for_status] and the parsing of the body give, with every failure
    on the way as the exception that leaves the calling function.  The
    [filters] parameter is [json.dumps] of the filter, so a reply that
    depends on the serialised text is a function of the filter. *)

Record Server : Type := {
  (** GET <endpoint>/_mapping: the keys of ['_mapping'] *)
  mapping_keys : string -> result (list string);
  (** GET <endpoint>?filters=..&facets=<field>&size=0: the bucket keys *)
  facet_buckets : string -> option filter_expr -> string -> result (list pyval);
  (** GET files?filters=..&size=..: ['data']['pagination']['pages'] *)
  pagination_pages : filter_expr -> Z -> result Z;
  (** GET files?filters=..&size=..&return_type=manifest&from=..&sort=..:
      the text of the response *)
  manifest_text : filter_expr -> Z -> Z -> result string
}.

(** ** Field validator and filter builder *)

(** On the values of [pyval] the last branch, [list(x)], is reached by a
    non-empty tuple, by True and by a non-zero int; the last two are not
    iterable. *)
Definition _convert_to_list (x : pyval) : result pyval :=
  if negb (truthy x) then Ok PNone
  else match x with
       | PList _ => Ok x
       | PStr _ => Ok (PList [x])
       | PTuple l => Ok (PList l)
       | PNone | PBool _ | PInt _ => Raise TypeError
       end.

Definition default_message : string := "At least one value given was invalid".

Definition _verify_data_list (data_list : pyval) (allowed_values : list pyval)
    (message : string) : result bool :=
  data_list <- _convert_to_list data_list ;;
  els <- py_iter data_list ;;
  if negb (forallb (fun el => py_in el allowed_values) els) then
    let bad_values := filter (fun el => negb (py_in el allowed_values)) els in
    joined <- py_join ", " bad_values ;;
    Raise (ValueError (message ++ ": " ++ joined))
  else Ok true.

Section Queries.
Variable W : Server.

Definition _list_valid_fields (endpoint_name : string) : result (list string) :=
  _verify_data_list (PList [PStr endpoint_name]) VALID_ENDPOINTS default_message ;;;
  mapping_keys W endpoint_name.

Definition _search_for_field (search_string endpoint_name : string)
    : result (list string) :=
  fields <- _list_valid_fields endpoint_name ;;
  Ok (filter (fun field => str_find field search_string >? 0) fields).

Definition _list_valid_options (field_name endpoint_name : string)
    (project_name : pyval) (strip_endpoint_from_field_name : bool)
    : result (list pyval) :=
  let filt_project :=
    if truthy project_name
    then Some (FIn "cases.project.project_id" (PList [project_name]))
    else None in
  let field_name :=
    if strip_endpoint_from_field_name
    then str_replace field_name (endpoint_name ++ ".") ""
    else field_name in
  facet_buckets W endpoint_name filt_project field_name.

Definition invalid_field_message (given : string) (matches : list string)
    : string :=
  "Field given was not valid: " ++ given ++ ". " ++ LF
    ++ " Some close matches: " ++ LF ++ TAB ++ str_join (LF ++ TAB) matches.

Definition _verify_field_name (field_name endpoint_name : string) : result bool :=
  match (allowed <- _list_valid_fields endpoint_name ;;
         _verify_data_list (PStr field_name) (map PStr allowed) default_message)
  with
  | Raise (ValueError _) =>
      possible_matches <- _search_for_field field_name endpoint_name ;;
      Raise (ValueError (invalid_field_message field_name possible_matches))
  | found => found
  end.

Definition _verify_field_values (data_list : pyval)
    (field_name endpoint_name : string) (project_name : pyval) : result bool :=
  _verify_field_name field_name endpoint_name ;;;
  valid_options <- _list_valid_options field_name endpoint_name project_name true ;;
  _verify_data_list data_list valid_options default_message.

(** The loop over [query_params]: the dict of the keyword arguments, visited
    in insertion order, here the list of its items.  Its keys are field names
    (a parameter name such as [endpoint_name] is bound by the call and is no
    constraint). *)
Fixpoint filter_loop (endpoint_name : string)
    (query_params : list (string * pyval)) (content_filters : list filter_expr)
    : result (list filter_expr) :=
  match query_params with
  | [] => Ok content_filters
  | (field, x) :: rest =>
      let field_name := endpoint_name ++ "." ++ field in
      data_list <- _convert_to_list x ;;
      _verify_field_values data_list field_name endpoint_name PNone ;;;
      value <- _convert_to_list x ;;
      let next_filter := FIn field_name value in
      filter_loop endpoint_name rest (content_filters ++ [next_filter])
  end.

Definition _construct_filter_parameters (project_name : pyval)
    (endpoint_name : string) (kwargs : list (string * pyval)) : result filter_expr :=
  let filt_project := FIn "cases.project.project_id" (PList [project_name]) in
  content_filters <- filter_loop endpoint_name kwargs [filt_project] ;;
  Ok (FAnd content_filters).

(** ** Manifest paginator *)

Definition _compute_start_given_page (page size : Z) : Z := page * size + 1.

(** [{'filters': json.dumps(filt), 'size': size}], the filter kept as a tree. *)
Definition _construct_parameters (project_name : pyval) (size : Z)
    (kwargs : list (string * pyval)) : result (filter_expr * Z) :=
  filt <- _construct_filter_parameters project_name "files" kwargs ;;
  Ok (filt, size).

Definition _get_num_pages (project_name : pyval) (size : Z)
    (kwargs : list (string * pyval)) : result Z :=
  params <- _construct_parameters project_name size kwargs ;;
  pagination_pages W (fst params) (snd params).

(** Returns [response.text], the only part of the response a caller reads. *)
Definition _get_manifest_once (project_name : pyval) (size page : Z)
    (kwargs : list (string * pyval)) : result string :=
  params <- _construct_parameters project_name size kwargs ;;
  let from_param := _compute_start_given_page page size in
  manifest_text W (fst params) (snd params) from_param.

(** [np.arange(pages)] for an integer: 0, 1, ..., pages-1. *)
Definition np_arange (pages : Z) : list Z :=
  map Z.of_nat (seq 0 (Z.to_nat pages)).

(** [del response_text[0]] *)
Definition del_first (response_text : list string) : result (list string) :=
  match response_text with
  | [] => Raise IndexError
  | _ :: rest => Ok rest
  end.

(** [[output.write(line+'\n') for line in response_text]] *)
Definition write_lines (output : string) (response_text : list string) : string :=
  fold_left (fun out line => out ++ (line ++ LF)) response_text output.

(** The loop over [np.arange(pages)].  [page] is a 64-bit numpy integer
    there: [page * size + 1] is taken in [Z], the value numpy computes as
    long as it lies below 2^63. *)
Fixpoint manifest_loop (project_name : pyval) (size : Z)
    (kwargs : list (string * pyval)) (pages : list Z) (output : string)
    : result string :=
  match pages with
  | [] => Ok output
  | page :: rest =>
      text <- _get_manifest_once project_name size page kwargs ;;
      let response_text := splitlines text in
      response_text <- (if page >? 0 then del_first response_text
                        else Ok response_text) ;;
      manifest_loop project_name size kwargs rest (write_lines output response_text)
  end.

(** [pages] is None or an int; [not(pages)] holds for None and for 0. *)
Definition get_manifest (project_name : pyval) (size : Z) (pages : option Z)
    (kwargs : list (string * pyval)) : result string :=
  pages <- match pages with
           | Some n => if n =? 0
                       then _get_num_pages project_name size kwargs
                       else Ok n
           | None => _get_num_pages project_name size kwargs
           end ;;
  manifest_loop project_name size kwargs (np_arange pages) "".

End Queries.

(** ** Paths ([posixpath]) *)

Definition is_slash (c : ascii) : bool := (N_of_ascii c =? 47)%N.

Definition starts_with_slash (s : string) : bool :=
  match s with
  | String c _ => is_slash c
  | "" => false
  end.

Fixpoint ends_with_slash (s : string) : bool :=
  match s with
  | "" => false
  | String c "" => is_slash c
  | String _ s' => ends_with_slash s'
  end.

(** [os.path.join(a, *p)] *)
Definition os_path_join (a : string) (p : list string) : string :=
  fold_left (fun path b =>
               if starts_with_slash b then b
               else if (path =? "")%string || ends_with_slash path then path ++ b
               else path ++ "/" ++ b) p a.

(** [(p[:i], p[i:])] for [i = p.rfind('/') + 1], when [p] has a slash. *)
Fixpoint cut_after_last_slash (p : string) : option (string * string) :=
  match p with
  | "" => None
  | String c p' =>
      match cut_after_last_slash p' with
      | Some (head, tail) => Some (String c head, tail)
      | None => if is_slash c then Some (String c "", p') else None
      end
  end.

Fixpoint all_slashes (s : string) : bool :=
  match s with
  | "" => true
  | String c s' => is_slash c && all_slashes s'
  end.

(** [s.rstrip('/')] *)
Fixpoint rstrip_slash (s : string) : string :=
  match s with
  | "" => ""
  | String c s' =>
      let r := rstrip_slash s' in
      if (r =? "")%string && is_slash c then "" else String c r
  end.

(** [os.path.split(p)] *)
Definition os_path_split (p : string) : string * string :=
  match cut_after_last_slash p with
  | None => ("", p)
  | Some (head, tail) =>
      (if all_slashes head then head else rstrip_slash head, tail)
  end.

(** ** The local machine

    A [Disk] is what the code observes of the file system: [os.path.exists]
    and the table pandas reads from a tab-separated file.  A row of the
    table gives a cell for each column; pandas infers the type of a column,
    so a cell is a string, an integer (a column of digits only) or a float
    (among them the NaN of an empty cell; the code reads no float's value).
    A [Host] gives the operations that change the disk. *)

Inductive cell : Type :=
| CStr (s : string)
| CInt (n : Z)
| CFloat.

Definition row : Type := list (string * cell).

(** [row[column]] *)
Fixpoint row_get (r : row) (column : string) : result cell :=
  match r with
  | [] => Raise KeyError
  | (name, c) :: rest =>
      if (name =? column)%string then Ok c else row_get rest column
  end.

Record Disk : Type := {
  path_exists : string -> bool;
  read_table : string -> result (list row)
}.

Record Host : Type := {
  (** [os.mkdir(path)] *)
  os_mkdir : string -> Disk -> result Disk;
  (** the name [tempfile.NamedTemporaryFile()] picks *)
  tmp_name : string;
  (** what [pd.read_table] gives on a file holding this text *)
  pd_parse : string -> result (list row);
  (** running a command in a working directory: exit status (or the
      exception of a failed start) and the disk it leaves *)
  run_process : list string -> string -> Disk -> result Z * Disk
}.

(** ** Verifier *)

Definition _read_manifest_data (d : Disk) (manifest_file : string)
    : result (list row) :=
  read_table d manifest_file.

(** [os.fspath] of each part: a part that is not a string raises TypeError. *)
Fixpoint fspaths (parts : list cell) : result (list string) :=
  match parts with
  | [] => Ok []
  | CStr s :: rest => ss <- fspaths rest ;; Ok (s :: ss)
  | _ :: _ => Raise TypeError
  end.

(** [os.path.join(a, *p)] on cells of a table *)
Definition os_path_join_cells (a : string) (p : list cell) : result string :=
  parts <- fspaths p ;; Ok (os_path_join a parts).

Definition _verify_download_single_file (d : Disk) (r : row) (data_dir : string)
    : result bool :=
  id <- row_get r "id" ;;
  filename <- row_get r "filename" ;;
  file_name <- os_path_join_cells data_dir [id; filename] ;;
  Ok (path_exists d file_name).

(** [manifest_data.apply(f, axis=1)]: [f] on each row in turn; the first
    exception ends it. *)
Fixpoint apply_rows (f : row -> result bool) (rows : list row)
    : result (list bool) :=
  match rows with
  | [] => Ok []
  | r :: rest => b <- f r ;; bs <- apply_rows f rest ;; Ok (b :: bs)
  end.

Definition verify_download (d : Disk) (manifest_file data_dir : string)
    : result bool :=
  manifest_data <- _read_manifest_data d manifest_file ;;
  verification <-
    apply_rows (fun r => _verify_download_single_file d r data_dir)
      manifest_data ;;
  if forallb (fun b => b) verification then Ok true
  else Raise (ValueError "Some files failed to download.").

(** ** Downloader: a state and error monad over the disk and the log of
    started processes *)

Record State : Type := {
  disk : Disk;
  invocations : list (list string * string)
}.

Definition M (A : Type) : Type := State -> result A * State.

Definition ret {A : Type} (a : A) : M A := fun st => (Ok a, st).

Definition bindM {A B : Type} (m : M A) (k : A -> M B) : M B :=
  fun st => match m st with
            | (Ok a, st') => k a st'
            | (Raise e, st') => (Raise e, st')
            end.

Definition raiseM {A : Type} (e : exn) : M A := fun st => (Raise e, st).

Definition lift {A : Type} (f : Disk -> result A) : M A :=
  fun st => (f (disk st), st).

(** [try: body finally: cleanup] *)
Definition try_finally {A : Type} (body : M A) (cleanup : M unit) : M A :=
  fun st => match body st with
            | (r, st') =>
                match cleanup st' with
                | (Ok _, st'') => (r, st'')
                | (Raise e, st'') => (Raise e, st'')
                end
            end.

Declare Scope m_scope.
Delimit Scope m_scope with m.
Notation "x <- e ;; k" := (bindM e (fun x => k))
  (at level 61, e at next level, right associativity) : m_scope.
Notation "e ;;; k" := (bindM e (fun _ => k))
  (at level 61, right associativity) : m_scope.

Definition set_disk (d : Disk) (st : State) : State :=
  {| disk := d; invocations := invocations st |}.

Definition modify_disk (f : Disk -> Disk) : M unit :=
  fun st => (Ok tt, set_disk (f (disk st)) st).

(** A file that holds a text pandas reads as [rows]: the temporary manifest
    when created (empty), and after [write] and [flush]. *)
Definition put_file (name : string) (rows : result (list row)) (d : Disk) : Disk :=
  {| path_exists := fun p => if (p =? name)%string then true else path_exists d p;
     read_table := fun p => if (p =? name)%string then rows else read_table d p |}.

(** [manifest_file.close()] deletes the temporary file. *)
Definition remove_file (name : string) (d : Disk) : Disk :=
  {| path_exists := fun p => if (p =? name)%string then false else path_exists d p;
     read_table := fun p => if (p =? name)%string then Raise OSError
                            else read_table d p |}.

(** [[GDC_CLIENT_PATH, 'download', '-m', manifest_file.name, '-t', GDC_TOKEN_PATH]] *)
Definition download_command (manifest_file : string) : list string :=
  [GDC_CLIENT_PATH; "download"; "-m"; manifest_file; "-t"; GDC_TOKEN_PATH].

Section Downloader.
Variable W : Server.
Variable H : Host.

Definition mkdir (path : string) : M unit :=
  fun st => match os_mkdir H path (disk st) with
            | Ok d => (Ok tt, set_disk d st)
            | Raise e => (Raise e, st)
            end.

Definition exists_M (path : string) : M bool :=
  lift (fun d => Ok (path_exists d path)).

(** The loop over the pair [os.path.split(dir)]. *)
Fixpoint mkdir_loop (sub_dir : string) (dir_names : list string) : M unit :=
  match dir_names with
  | [] => ret tt
  | dir_name :: rest =>
      (let sub_dir := os_path_join sub_dir [dir_name] in
       found <- exists_M sub_dir ;;
       (if negb found then mkdir sub_dir else ret tt) ;;;
       mkdir_loop sub_dir rest)%m
  end.

Definition _mkdir_if_not_exists (dir : string) : M unit :=
  (found <- exists_M dir ;;
   if negb found then
     let (head, tail) := os_path_split dir in
     mkdir_loop "" [head; tail]
   else ret tt)%m.

(** [subprocess.call(args, cwd=cwd)]: the exit status. *)
Definition subprocess_call (args : list string) (cwd : string) : M Z :=
  fun st =>
    let (r, d) := run_process H args cwd (disk st) in
    (r, {| disk := d; invocations := invocations st ++ [(args, cwd)] |}).

(** [subprocess.check_call(args, cwd=cwd)]: 0, or CalledProcessError. *)
Definition subprocess_check_call (args : list string) (cwd : string) : M Z :=
  (retcode <- subprocess_call args cwd ;;
   if negb (retcode =? 0) then raiseM (CalledProcessError retcode)
   else ret 0)%m.

Definition _download_files (project_name data_category : pyval)
    (page_size : Z) (max_pages : option Z) (data_dir : string)
    (kwargs : list (string * pyval)) : M bool :=
  (_mkdir_if_not_exists data_dir ;;;
   manifest_contents <-
     lift (fun _ => get_manifest W project_name page_size max_pages
                      (("data_category", data_category) :: kwargs)) ;;
   let manifest_file := tmp_name H in
   modify_disk (put_file manifest_file (pd_parse H "")) ;;;
   try_finally
     (modify_disk (put_file manifest_file (pd_parse H manifest_contents)) ;;;
      let exe_bash := download_command manifest_file in
      status <- subprocess_check_call exe_bash data_dir ;;
      (if negb (status =? 0)
       then (subprocess_call exe_bash data_dir ;;; ret tt)
       else ret tt) ;;;
      lift (fun d => verify_download d manifest_file data_dir) ;;;
      ret tt)
     (modify_disk (remove_file manifest_file)) ;;;
   ret true)%m.

Definition download_clinical_files (project_name : pyval) (page_size : Z)
    (max_pages : option Z) (data_dir : string) (kwargs : list (string * pyval))
    : M bool :=
  _download_files project_name (PList [PStr "Clinical"]) page_size max_pages
    data_dir kwargs.

End Downloader.

(** ** Predicates used in the statements *)

Definition is_list (x : pyval) : bool :=
  match x with PList _ => true | _ => false end.
Definition is_tuple (x : pyval) : bool :=
  match x with PTuple _ => true | _ => false end.
Definition is_str (x : pyval) : bool :=
  match x with PStr _ => true | _ => false end.

Definition is_leaf (f : filter_expr) : bool :=
  match f with FIn _ _ => true | FAnd _ => false end.

(** The text written for a list of lines: each followed by one newline. *)
Definition lines_text (lines : list string) : string :=
  fold_right (fun line rest => line ++ LF ++ rest) "" lines.

Definition no_linebreak (line : string) : Prop :=
  Forall (fun c => is_linebreak c = false) (list_ascii_of_string line).

(** Page indices 1 .. pages-1. *)
Definition later_pages (pages : Z) : list Z :=
  map Z.of_nat (seq 1 (Z.to_nat pages - 1)).

(** The lines a run over [pages] pages keeps: all of page 0, and every
    later page without its first line. *)
Definition kept_lines (texts : Z -> string) (pages : Z) : list string :=
  (splitlines (texts 0)
   ++ flat_map (fun i => tl (splitlines (texts i))) (later_pages pages))%list.

(** [sub in s] *)
Definition contains (s sub : string) : bool := 0 <=? str_find s sub.

Definition count_invocations (st : State) : nat := List.length (invocations st).

(** ** A small server, disk and client for the concrete runs *)

Module Mock.

Definition fields : list string :=
  ["files.data_category"; "files.analysis.input_files.data_category";
   "files.file_name"].

Definition header : string := "id" ++ TAB ++ "filename".
Definition data_row (id name : string) : string := id ++ TAB ++ name.

(** Three pages of one header row and two data rows. *)
Definition page (i : Z) : string :=
  match i with
  | 0 => header ++ LF ++ data_row "u1" "a.xml" ++ LF ++ data_row "u2" "b.xml" ++ LF
  | 1 => header ++ LF ++ data_row "u3" "c.xml" ++ LF ++ data_row "u4" "d.xml" ++ LF
  | 2 => header ++ LF ++ data_row "u5" "e.xml" ++ LF ++ data_row "u6" "f.xml" ++ LF
  | _ => header ++ LF
  end.

Definition server : Server := {|
  mapping_keys := fun endpoint_name =>
    if (endpoint_name =? "files")%string then Ok fields
    else Raise (HTTPError 404);
  facet_buckets := fun endpoint_name _ field_name =>
    if ((endpoint_name =? "files") && (field_name =? "data_category"))%string
    then Ok [PStr "Clinical"; PStr "Biospecimen"]
    else Raise (ValueError "Server responded with: {}");
  pagination_pages := fun _ _ => Ok 3;
  manifest_text := fun _ size from => Ok (page ((from - 1) / size))
|}.

Definition manifest_row (id filename : string) : row :=
  [("id", CStr id); ("filename", CStr filename)].

Definition rows : list row :=
  [manifest_row "u1" "a.xml"; manifest_row "u2" "b.xml"].

Definition manifest_path : string := "manifest.tsv".

(** Only the data directory exists; the manifest lists two files. *)
Definition empty_disk : Disk := {|
  path_exists := fun p => (p =? "data/gdc")%string;
  read_table := fun p => if (p =? manifest_path)%string then Ok rows
                         else Raise OSError
|}.

Definition add_path (name : string) (d : Disk) : Disk :=
  {| path_exists := fun p => if (p =? name)%string then true else path_exists d p;
     read_table := read_table d |}.

(** Both listed files are present. *)
Definition full_disk : Disk :=
  add_path "data/gdc/u1/a.xml" (add_path "data/gdc/u2/b.xml" empty_disk).

(** A client that exits with [status] and downloads nothing. *)
Definition host (status : Z) : Host := {|
  os_mkdir := fun p d => Ok (add_path p d);
  tmp_name := "/tmp/tmpmanifest";
  pd_parse := fun text =>
    if (text =? "")%string then Raise (ValueError "No columns to parse from file")
    else Ok rows;
  run_process := fun _ _ d => (Ok status, d)
|}.

Definition start (d : Disk) : State := {| disk := d; invocations := [] |}.

Definition clinical : list (string * pyval) :=
  [("data_category", PList [PStr "Clinical"])].

End Mock.

(** ** A second server and client for the concrete runs: two facets, no
    page reported, a first page followed by a given reply, a client that
    downloads the listed files and an [os.mkdir] that refuses the empty
    path *)

Module Sample.

Definition server (later_page : result string) : Server := {|
  mapping_keys := fun endpoint_name =>
    if (endpoint_name =? "files")%string
    then Ok ["files.data_category"; "files.data_format"; "files.file_name"]
    else Raise (HTTPError 404);
  facet_buckets := fun endpoint_name _ field_name =>
    if (endpoint_name =? "files")%string then
      if (field_name =? "data_category")%string
      then Ok [PStr "Clinical"; PStr "Biospecimen"]
      else if (field_name =? "data_format")%string
      then Ok [PStr "BCR XML"; PStr "TXT"]
      else Raise (ValueError "Server responded with: {}")
    else Raise (HTTPError 404);
  pagination_pages := fun _ _ => Ok 0;
  manifest_text := fun _ _ from =>
    if from =? 1 then Ok (Mock.page 0) else later_page
|}.

Definition host : Host := {|
  os_mkdir := fun p d =>
    if (p =? "")%string then Raise OSError else Ok (Mock.add_path p d);
  tmp_name := "/tmp/tmpmanifest";
  pd_parse := fun text =>
    if (text =? "")%string then Raise (ValueError "No columns to parse from file")
    else Ok Mock.rows;
  run_process := fun _ cwd d =>
    (Ok 0, Mock.add_path (os_path_join cwd ["u1"; "a.xml"])
             (Mock.add_path (os_path_join cwd ["u2"; "b.xml"]) d))
|}.

(** Nothing exists yet. *)
Definition blank_disk : Disk := {|
  path_exists := fun _ => false;
  read_table := fun _ => Raise OSError
|}.

End Sample.

(** The same server with another answer to the page count request. *)
Definition with_pagination (W : Server) (pages : filter_expr -> Z -> result Z)
    : Server :=
  {| mapping_keys := mapping_keys W;
     facet_buckets := facet_buckets W;
     pagination_pages := pages;
     manifest_text := manifest_text W |}.

(** ** Manifests that are not read as text rows: an [id] column of digits,
    and a file of zero bytes *)

Module Tables.

Definition manifest_path : string := "manifest.tsv".

(** The manifest lists id 123 and file a.xml; that file is on the disk. *)
Definition numeric_id_disk : Disk := {|
  path_exists := fun p => (p =? "data/gdc/123/a.xml")%string;
  read_table := fun p =>
    if (p =? manifest_path)%string
    then Ok [[("id", CInt 123); ("filename", CStr "a.xml")]]
    else Raise OSError
|}.

(** The manifest is an empty file: pandas raises EmptyDataError, a
    ValueError. *)
Definition empty_manifest_disk : Disk := {|
  path_exists := fun _ => false;
  read_table := fun p =>
    if (p =? manifest_path)%string
    then Raise (ValueError "No columns to parse from file")
    else Raise OSError
|}.

End Tables.

(** * Properties *)

(** ** The error monad *)

Lemma bind_ok {A B : Type} (r : result A) (k : A -> result B) (b : B) :
  bind r k = Ok b -> exists a, r = Ok a /\ k a = Ok b.
Proof.
  destruct r as [a | e]; simpl; intros Hk.
  - exists a. split; [reflexivity | exact Hk].
  - discriminate Hk.
Qed.

(** ** _convert_to_list *)

Lemma convert_to_list_falsy (x : pyval) :
  truthy x = false -> _convert_to_list x = Ok PNone.
Proof. unfold _convert_to_list. intros ->. reflexivity. Qed.

Lemma convert_to_list_nonempty_list (l : list pyval) :
  l <> [] -> _convert_to_list (PList l) = Ok (PList l).
Proof. destruct l; [congruence | reflexivity]. Qed.

(** C7: [_convert_to_list] is idempotent on lists, tuples, strings and falsy
    values, and a falsy value gives None, not the empty list. *)
Theorem convert_to_list_idempotent (x : pyval) :
  is_list x || is_tuple x || is_str x || negb (truthy x) = true ->
  exists y, _convert_to_list x = Ok y
            /\ _convert_to_list y = Ok y
            /\ (truthy x = false -> y = PNone /\ y <> PList []).
Proof.
  intros Hx.
  destruct (truthy x) eqn:Ht.
  - destruct x as [ | b | n | s | l | l]; simpl in Hx; try discriminate Hx.
    + exists (PList [PStr s]). unfold _convert_to_list. rewrite Ht. simpl.
      repeat split; intros; discriminate.
    + exists (PList l). destruct l; [discriminate Ht | ].
      repeat split; intros; discriminate.
    + exists (PList l). destruct l; [discriminate Ht | ].
      repeat split; intros; discriminate.
  - exists PNone. rewrite (convert_to_list_falsy x Ht).
    repeat split; discriminate.
Qed.

Lemma convert_to_list_idempotent_witness :
  exists y, _convert_to_list (PTuple [PStr "Clinical"; PStr "Biospecimen"]) = Ok y
            /\ _convert_to_list y = Ok y
            /\ (truthy (PTuple [PStr "Clinical"; PStr "Biospecimen"]) = false ->
                y = PNone /\ y <> PList []).
Proof.
  apply (convert_to_list_idempotent (PTuple [PStr "Clinical"; PStr "Biospecimen"])).
  reflexivity.
Defined.

(** C10: on an empty or falsy list [_verify_data_list] neither returns True
    nor raises the ValueError of an invalid value: the list becomes None and
    iterating over it raises TypeError. *)
Theorem verify_data_list_falsy_raises_type_error
    (x : pyval) (allowed_values : list pyval) (message : string) :
  truthy x = false ->
  _convert_to_list x = Ok PNone
  /\ py_iter PNone = Raise TypeError
  /\ _verify_data_list x allowed_values message = Raise TypeError
  /\ _verify_data_list x allowed_values message <> Ok true
  /\ (forall msg, _verify_data_list x allowed_values message <> Raise (ValueError msg)).
Proof.
  intros Hx.
  assert (Hv : _verify_data_list x allowed_values message = Raise TypeError).
  { unfold _verify_data_list. rewrite (convert_to_list_falsy x Hx). reflexivity. }
  rewrite Hv. repeat split.
  - apply convert_to_list_falsy, Hx.
  - discriminate.
  - discriminate.
Qed.

Lemma verify_data_list_falsy_raises_type_error_witness :
  _convert_to_list (PList []) = Ok PNone
  /\ py_iter PNone = Raise TypeError
  /\ _verify_data_list (PList []) [PStr "Clinical"] default_message = Raise TypeError
  /\ _verify_data_list (PList []) [PStr "Clinical"] default_message <> Ok true
  /\ (forall msg, _verify_data_list (PList []) [PStr "Clinical"] default_message
                  <> Raise (ValueError msg)).
Proof.
  apply (verify_data_list_falsy_raises_type_error (PList []) [PStr "Clinical"]
           default_message).
  reflexivity.
Defined.

(** ** The filter builder *)

Section FilterBuilder.
Variable W : Server.

(** A None value list never validates: the field name check or the option
    lookup fails, or the membership test raises TypeError. *)
Lemma verify_field_values_none (field_name endpoint_name : string)
    (project_name : pyval) :
  exists e, _verify_field_values W PNone field_name endpoint_name project_name
            = Raise e.
Proof.
  unfold _verify_field_values.
  destruct (_verify_field_name W field_name endpoint_name) as [b | e]; simpl.
  - destruct (_list_valid_options W field_name endpoint_name project_name true)
      as [opts | e]; simpl.
    + exists TypeError. reflexivity.
    + exists e. reflexivity.
  - exists e. reflexivity.
Qed.

(** The loop only appends leaves, one per constraint. *)
Lemma filter_loop_appends (endpoint_name : string)
    (kwargs : list (string * pyval)) :
  forall content_filters result_filters,
    filter_loop W endpoint_name kwargs content_filters = Ok result_filters ->
    exists added,
      result_filters = (content_filters ++ added)%list
      /\ forallb is_leaf added = true
      /\ List.length added = List.length kwargs.
Proof.
  induction kwargs as [ | [field x] rest IH]; intros content_filters res Hres.
  - simpl in Hres. injection Hres as <-. exists []. rewrite app_nil_r. auto.
  - simpl in Hres.
    apply bind_ok in Hres. destruct Hres as [data_list [_ Hres]].
    apply bind_ok in Hres. destruct Hres as [_b [_ Hres]].
    apply bind_ok in Hres. destruct Hres as [value [_ Hres]].
    apply IH in Hres. destruct Hres as [added [-> [Hleaf Hlen]]].
    exists (FIn (endpoint_name ++ "." ++ field) value :: added).
    rewrite <- app_assoc. simpl. rewrite Hleaf, Hlen. auto.
Qed.

(** A falsy constraint stops the loop with an exception, wherever it is. *)
Lemma filter_loop_falsy_raises (endpoint_name : string)
    (kwargs : list (string * pyval)) (field : string) (x : pyval) :
  In (field, x) kwargs -> truthy x = false ->
  forall content_filters,
    exists e, filter_loop W endpoint_name kwargs content_filters = Raise e.
Proof.
  intros Hin Hx.
  induction kwargs as [ | [field' x'] rest IH]; intros content_filters.
  - destruct Hin.
  - cbn [filter_loop]. destruct Hin as [Heq | Hin].
    + injection Heq as -> ->.
      rewrite (convert_to_list_falsy x Hx). cbn [bind].
      destruct (verify_field_values_none (endpoint_name ++ "." ++ field)
                  endpoint_name PNone) as [e He].
      exists e. rewrite He. reflexivity.
    + destruct (_convert_to_list x') as [data_list | e]; cbn [bind];
        [ | exists e; reflexivity].
      destruct (_verify_field_values W data_list (endpoint_name ++ "." ++ field')
                  endpoint_name PNone) as [b | e]; cbn [bind];
        [ | exists e; reflexivity].
      apply IH, Hin.
Qed.

End FilterBuilder.

(** C4: the filter is one AND node whose first child is the leaf
    [cases.project.project_id in [project]]; without extra constraints it is
    built without any request and holds this leaf alone; with constraints,
    every further child is a leaf, one per constraint. *)
Theorem construct_filter_project_leaf_first
    (W : Server) (project_name : pyval) (endpoint_name : string) :
  _construct_filter_parameters W project_name endpoint_name []
  = Ok (FAnd [FIn "cases.project.project_id" (PList [project_name])])
  /\ forall kwargs filt,
       _construct_filter_parameters W project_name endpoint_name kwargs = Ok filt ->
       exists rest,
         filt = FAnd (FIn "cases.project.project_id" (PList [project_name]) :: rest)
         /\ forallb is_leaf rest = true
         /\ List.length rest = List.length kwargs.
Proof.
  split; [reflexivity | ].
  intros kwargs filt Hf. unfold _construct_filter_parameters in Hf.
  apply bind_ok in Hf. destruct Hf as [content [Hloop Hf]].
  injection Hf as <-.
  apply filter_loop_appends in Hloop. destruct Hloop as [added [-> [Hleaf Hlen]]].
  exists added. auto.
Qed.

Lemma construct_filter_project_leaf_first_witness :
  exists rest,
    FAnd [FIn "cases.project.project_id" (PList [PStr "TCGA-BLCA"]);
          FIn "files.data_category" (PList [PStr "Clinical"])]
    = FAnd (FIn "cases.project.project_id" (PList [PStr "TCGA-BLCA"]) :: rest)
    /\ forallb is_leaf rest = true
    /\ List.length rest = List.length Mock.clinical.
Proof.
  apply (proj2 (construct_filter_project_leaf_first Mock.server (PStr "TCGA-BLCA")
                  "files") Mock.clinical).
  reflexivity.
Defined.

(** A falsy constraint value is normalised to None and the builder has no
    rule that drops the constraint: with such a constraint among the keyword
    arguments it returns no filter, on any server. *)
Theorem construct_filter_falsy_constraint_no_filter
    (W : Server) (project_name : pyval) (endpoint_name : string)
    (kwargs : list (string * pyval)) (field : string) (x : pyval) :
  In (field, x) kwargs -> truthy x = false ->
  _convert_to_list x = Ok PNone
  /\ exists e, _construct_filter_parameters W project_name endpoint_name kwargs
               = Raise e.
Proof.
  intros Hin Hx. split; [apply convert_to_list_falsy, Hx | ].
  unfold _construct_filter_parameters.
  destruct (filter_loop_falsy_raises W endpoint_name kwargs field x Hin Hx
              [FIn "cases.project.project_id" (PList [project_name])]) as [e He].
  exists e. rewrite He. reflexivity.
Qed.

Lemma construct_filter_falsy_constraint_no_filter_witness :
  _convert_to_list (PStr "") = Ok PNone
  /\ exists e, _construct_filter_parameters Mock.server (PStr "TCGA-BLCA") "files"
                 [("data_category", PList [PStr "Clinical"]); ("file_name", PStr "")]
               = Raise e.
Proof.
  apply (construct_filter_falsy_constraint_no_filter Mock.server (PStr "TCGA-BLCA")
           "files" [("data_category", PList [PStr "Clinical"]); ("file_name", PStr "")]
           "file_name" (PStr "")).
  - simpl. right. left. reflexivity.
  - reflexivity.
Defined.

(** C2, at an input where the code and the claim differ: with the valid
    field [data_category] and an empty value list the builder raises
    TypeError (the list is normalised to None, which the membership test
    iterates over), while without the constraint it returns the filter with
    the project leaf alone. *)
Lemma construct_filter_falsy_constraint_counterexample :
  _construct_filter_parameters Mock.server (PStr "TCGA-BLCA") "files"
    [("data_category", PList [])] = Raise TypeError
  /\ _construct_filter_parameters Mock.server (PStr "TCGA-BLCA") "files" []
     = Ok (FAnd [FIn "cases.project.project_id" (PList [PStr "TCGA-BLCA"])]).
Proof. split; reflexivity. Qed.

(** ** Membership tests and joins on lists of strings *)

Lemma py_in_str (s : string) (allowed : list string) :
  py_in (PStr s) (map PStr allowed) = existsb (fun a => (a =? s)%string) allowed.
Proof.
  unfold py_in. induction allowed as [ | a rest IH]; [reflexivity | ].
  simpl. rewrite IH. reflexivity.
Qed.

Lemma py_in_str_false (s : string) (allowed : list string) :
  ~ In s allowed -> py_in (PStr s) (map PStr allowed) = false.
Proof.
  intros Hnot. rewrite py_in_str.
  destruct (existsb (fun a => (a =? s)%string) allowed) eqn:Hex; [ | reflexivity].
  apply existsb_exists in Hex. destruct Hex as [a [Hin Heq]].
  apply String.eqb_eq in Heq. subst a. contradiction.
Qed.

Lemma as_strs_map (l : list string) : as_strs (map PStr l) = Ok l.
Proof.
  induction l as [ | s rest IH]; [reflexivity | ].
  simpl. rewrite IH. reflexivity.
Qed.

Lemma filter_map_PStr (p : pyval -> bool) (l : list string) :
  filter p (map PStr l) = map PStr (filter (fun s => p (PStr s)) l).
Proof.
  induction l as [ | s rest IH]; [reflexivity | ].
  simpl. rewrite IH. destruct (p (PStr s)); reflexivity.
Qed.

Lemma forallb_map_PStr (p : pyval -> bool) (l : list string) :
  forallb p (map PStr l) = forallb (fun s => p (PStr s)) l.
Proof.
  induction l as [ | s rest IH]; [reflexivity | ].
  simpl. rewrite IH. reflexivity.
Qed.

(** What [_verify_data_list] does on a non-empty list of strings. *)
Lemma verify_data_list_strs (vals : list string) (allowed_values : list pyval)
    (message : string) :
  vals <> [] ->
  _verify_data_list (PList (map PStr vals)) allowed_values message
  = if forallb (fun v => py_in (PStr v) allowed_values) vals then Ok true
    else Raise (ValueError
                  (message ++ ": "
                   ++ str_join ", "
                        (filter (fun v => negb (py_in (PStr v) allowed_values)) vals))).
Proof.
  intros Hne. unfold _verify_data_list.
  rewrite convert_to_list_nonempty_list by (destruct vals; [congruence | discriminate]).
  cbn [bind py_iter]. rewrite forallb_map_PStr.
  destruct (forallb (fun v => py_in (PStr v) allowed_values) vals); [reflexivity | ].
  cbn [negb]. rewrite filter_map_PStr. unfold py_join. rewrite as_strs_map.
  reflexivity.
Qed.

(** On lists of strings: [_verify_field_values] passes on an error of the
    field name check, whatever the values; with a valid field name and a
    discovered domain, a list of strings holding at least one value outside
    the domain raises ValueError, and the message lists, comma-joined and in
    input order, exactly the values outside the domain. *)
Theorem verify_field_values_enumerates_invalid
    (W : Server) (vals : list string) (field_name endpoint_name : string)
    (project_name : pyval) (domain : list pyval) :
  (forall data_list e,
      _verify_field_name W field_name endpoint_name = Raise e ->
      _verify_field_values W data_list field_name endpoint_name project_name
      = Raise e)
  /\ (_verify_field_name W field_name endpoint_name = Ok true ->
      _list_valid_options W field_name endpoint_name project_name true = Ok domain ->
      (exists v, In v vals /\ py_in (PStr v) domain = false) ->
      _verify_field_values W (PList (map PStr vals)) field_name endpoint_name
        project_name
      = Raise (ValueError
                 ("At least one value given was invalid: "
                  ++ str_join ", "
                       (filter (fun v => negb (py_in (PStr v) domain)) vals)))
      /\ forall v, In v (filter (fun v => negb (py_in (PStr v) domain)) vals)
                   <-> In v vals /\ py_in (PStr v) domain = false).
Proof.
  split.
  - intros data_list e He. unfold _verify_field_values. rewrite He. reflexivity.
  - intros Hname Hopts [v [Hin Hbad]]. split.
    + unfold _verify_field_values. rewrite Hname, Hopts. cbn [bind].
      rewrite verify_data_list_strs by (destruct vals; [destruct Hin | discriminate]).
      destruct (forallb (fun v0 => py_in (PStr v0) domain) vals) eqn:Hall.
      * rewrite forallb_forall in Hall. rewrite (Hall v Hin) in Hbad. discriminate.
      * reflexivity.
    + intros v'. rewrite filter_In, negb_true_iff. reflexivity.
Qed.

Lemma verify_field_values_enumerates_invalid_witness :
  _verify_field_values Mock.server
    (PList (map PStr ["x"; "Clinical"; "y"])) "files.data_category" "files" PNone
  = Raise (ValueError "At least one value given was invalid: x, y").
Proof.
  apply (proj1 (proj2 (verify_field_values_enumerates_invalid Mock.server
                         ["x"; "Clinical"; "y"] "files.data_category" "files" PNone
                         [PStr "Clinical"; PStr "Biospecimen"])
                  eq_refl eq_refl
                  (ex_intro _ "x" (conj (or_introl eq_refl) eq_refl)))).
Defined.

(** C5, at an input where the code and the claim differ: the field is valid,
    the values x and 7 are both outside its domain, and the call raises
    TypeError, because [', '.join] meets the int 7 while the message is
    built, instead of the ValueError that lists x and 7.  With the strings x
    and y in its place the ValueError lists both. *)
Theorem verify_field_values_non_string_value_raises :
  _verify_field_name Mock.server "files.data_category" "files" = Ok true
  /\ _list_valid_options Mock.server "files.data_category" "files" PNone true
     = Ok [PStr "Clinical"; PStr "Biospecimen"]
  /\ py_in (PStr "x") [PStr "Clinical"; PStr "Biospecimen"] = false
  /\ py_in (PInt 7) [PStr "Clinical"; PStr "Biospecimen"] = false
  /\ _verify_field_values Mock.server (PList [PStr "x"; PInt 7])
       "files.data_category" "files" PNone
     = Raise TypeError
  /\ _verify_field_values Mock.server (PList [PStr "x"; PStr "y"])
       "files.data_category" "files" PNone
     = Raise (ValueError "At least one value given was invalid: x, y").
Proof. repeat split. Qed.

(** ** Field names *)

Lemma str_find_prefix (s sub : string) :
  prefix sub s = true -> str_find s sub = 0.
Proof.
  intros Hp. unfold str_find. destruct s; simpl; simpl in Hp; rewrite Hp; reflexivity.
Qed.

(** What [_verify_field_name] raises for a non-empty name outside the schema:
    the suggestions are the schema's field names in which the name occurs at
    an index above 0. *)
Lemma verify_field_name_invalid (W : Server) (field_name endpoint_name : string)
    (fields : list string) :
  _list_valid_fields W endpoint_name = Ok fields ->
  field_name <> "" ->
  ~ In field_name fields ->
  _verify_field_name W field_name endpoint_name
  = Raise (ValueError
             (invalid_field_message field_name
                (filter (fun field => str_find field field_name >? 0) fields))).
Proof.
  intros Hfields Hne Hnot. unfold _verify_field_name, _search_for_field.
  rewrite Hfields. cbn [bind].
  assert (Hv : _verify_data_list (PStr field_name) (map PStr fields) default_message
               = Raise (ValueError (default_message ++ ": " ++ field_name))).
  { unfold _verify_data_list, _convert_to_list.
    assert (Ht : truthy (PStr field_name) = true).
    { simpl. apply negb_true_iff, String.eqb_neq, Hne. }
    rewrite Ht. cbn [negb bind py_iter forallb filter].
    rewrite (py_in_str_false field_name fields Hnot). reflexivity. }
  rewrite Hv. reflexivity.
Qed.

(** C6, at an input where the code and the claim differ: the name
    [files.data] is not in the schema, the schema's [files.data_category]
    contains it (at index 0), and the suggestions leave that field out. *)
Theorem verify_field_name_drops_prefix_match :
  _verify_field_name Mock.server "files.data" "files"
  = Raise (ValueError
             (invalid_field_message "files.data"
                ["files.analysis.input_files.data_category"]))
  /\ ~ In "files.data" Mock.fields
  /\ In "files.data_category" Mock.fields
  /\ contains "files.data_category" "files.data" = true
  /\ str_find "files.data_category" "files.data" = 0.
Proof.
  repeat split.
  - unfold Mock.fields. simpl. intros [H | [H | [H | []]]]; discriminate H.
  - left. reflexivity.
Qed.

(** ** Verifier *)

Lemma forallb_id_map {A : Type} (p : A -> bool) (l : list A) :
  forallb (fun b => b) (map p l) = forallb p l.
Proof.
  induction l as [ | a rest IH]; [reflexivity | ].
  simpl. rewrite IH. reflexivity.
Qed.

Lemma apply_rows_ok (f : row -> result bool) (rows : list row) :
  forall bs, apply_rows f rows = Ok bs -> Forall2 (fun r b => f r = Ok b) rows bs.
Proof.
  induction rows as [ | r rest IH]; intros bs Hbs.
  - simpl in Hbs. injection Hbs as <-. constructor.
  - cbn [apply_rows] in Hbs.
    apply bind_ok in Hbs. destruct Hbs as [b [Hb Hbs]].
    apply bind_ok in Hbs. destruct Hbs as [bs' [Hrest Hbs]].
    injection Hbs as <-. constructor; [exact Hb | apply IH, Hrest].
Qed.

Lemma apply_rows_all_true (f : row -> result bool) (rows : list row) :
  (forall r, In r rows -> f r = Ok true) ->
  exists bs, apply_rows f rows = Ok bs /\ forallb (fun b => b) bs = true.
Proof.
  induction rows as [ | r rest IH]; intros Hall.
  - exists []. split; reflexivity.
  - destruct IH as [bs [Hbs Htrue]]; [intros r' Hr'; apply Hall; right; exact Hr' | ].
    exists (true :: bs). cbn [apply_rows].
    rewrite (Hall r (or_introl eq_refl)), Hbs. split; [reflexivity | exact Htrue].
Qed.

(** [verify_download] returns True exactly when the manifest is read and the
    check of every row returns True. *)
Lemma verify_download_true_iff (d : Disk) (manifest_file data_dir : string) :
  verify_download d manifest_file data_dir = Ok true
  <-> exists rows,
        read_table d manifest_file = Ok rows
        /\ forall r, In r rows ->
                     _verify_download_single_file d r data_dir = Ok true.
Proof.
  unfold verify_download, _read_manifest_data. split.
  - intros Hok. apply bind_ok in Hok. destruct Hok as [rows [Hread Hok]].
    apply bind_ok in Hok. destruct Hok as [bs [Hbs Hok]].
    exists rows. split; [exact Hread | ].
    destruct (forallb (fun b => b) bs) eqn:Hall; [ | discriminate Hok].
    apply apply_rows_ok in Hbs. clear Hok Hread.
    induction Hbs as [ | r b rows bs Hr _ IH]; intros r' Hin; [destruct Hin | ].
    cbn [forallb] in Hall. apply andb_true_iff in Hall. destruct Hall as [Hb Hall].
    destruct Hin as [<- | Hin]; [rewrite Hr, Hb; reflexivity | exact (IH Hall r' Hin)].
  - intros [rows [Hread Hall]]. rewrite Hread. cbn [bind].
    destruct (apply_rows_all_true _ rows Hall) as [bs [Hbs Htrue]].
    rewrite Hbs. cbn [bind]. rewrite Htrue. reflexivity.
Qed.

Lemma verify_download_not_false (d : Disk) (manifest_file data_dir : string) :
  verify_download d manifest_file data_dir <> Ok false.
Proof.
  unfold verify_download. intros Hfalse.
  apply bind_ok in Hfalse. destruct Hfalse as [rows [_ Hfalse]].
  apply bind_ok in Hfalse. destruct Hfalse as [bs [_ Hfalse]].
  destruct (forallb (fun b => b) bs); discriminate Hfalse.
Qed.

(** The check of a row whose [id] and [filename] cells are text. *)
Lemma verify_single_file_text (d : Disk) (r : row) (data_dir id filename : string) :
  row_get r "id" = Ok (CStr id) ->
  row_get r "filename" = Ok (CStr filename) ->
  _verify_download_single_file d r data_dir
  = Ok (path_exists d (os_path_join data_dir [id; filename])).
Proof.
  intros Hid Hname. unfold _verify_download_single_file.
  rewrite Hid, Hname. reflexivity.
Qed.

(** On a manifest that is read and whose [id] and [filename] cells are all
    text, [verify_download] returns True exactly when every row has its file
    at [os.path.join(data_dir, id, filename)], and raises the ValueError of
    an incomplete download when a row's file is missing. *)
Lemma verify_download_text_rows
    (d : Disk) (manifest_file data_dir : string) (rows : list row)
    (names : list (string * string)) :
  read_table d manifest_file = Ok rows ->
  Forall2 (fun r n => row_get r "id" = Ok (CStr (fst n))
                      /\ row_get r "filename" = Ok (CStr (snd n))) rows names ->
  (verify_download d manifest_file data_dir = Ok true
   <-> Forall (fun n => path_exists d (os_path_join data_dir [fst n; snd n])
                        = true) names)
  /\ (Exists (fun n => path_exists d (os_path_join data_dir [fst n; snd n])
                       = false) names ->
      verify_download d manifest_file data_dir
      = Raise (ValueError "Some files failed to download.")).
Proof.
  intros Hread Htext.
  assert (Hrows : apply_rows (fun r => _verify_download_single_file d r data_dir)
                    rows
                  = Ok (map (fun n => path_exists d
                                        (os_path_join data_dir [fst n; snd n]))
                          names)).
  { clear Hread.
    induction Htext as [ | r n rows names [Hid Hname] _ IH]; [reflexivity | ].
    cbn [apply_rows map].
    rewrite (verify_single_file_text d r data_dir (fst n) (snd n) Hid Hname).
    cbn [bind]. rewrite IH. reflexivity. }
  unfold verify_download, _read_manifest_data. rewrite Hread. cbn [bind].
  rewrite Hrows. cbn [bind]. rewrite forallb_id_map.
  destruct (forallb (fun n => path_exists d (os_path_join data_dir [fst n; snd n]))
              names) eqn:Hall.
  - rewrite forallb_forall in Hall. split.
    + split; [ | reflexivity]. intros _. apply Forall_forall. exact Hall.
    + intros Hex. apply Exists_exists in Hex. destruct Hex as [n [Hin Hmiss]].
      rewrite (Hall n Hin) in Hmiss. discriminate.
  - split; [ | reflexivity]. split; [discriminate | ].
    intros Hforall. rewrite Forall_forall in Hforall.
    apply forallb_forall in Hforall. rewrite Hforall in Hall. discriminate.
Qed.

(** C8, at inputs where the code and the claim differ.  A manifest whose
    [id] column holds digits only is read with integer ids: the file of its
    row exists, and [verify_download] raises the TypeError of
    [os.path.join] instead of returning True.  A manifest of zero bytes has
    no row, and [verify_download] raises the error of [pd.read_table]
    instead of returning True. *)
Theorem verify_download_numeric_id_raises :
  read_table Tables.numeric_id_disk Tables.manifest_path
  = Ok [[("id", CInt 123); ("filename", CStr "a.xml")]]
  /\ path_exists Tables.numeric_id_disk "data/gdc/123/a.xml" = true
  /\ verify_download Tables.numeric_id_disk Tables.manifest_path "data/gdc"
     = Raise TypeError
  /\ read_table Tables.empty_manifest_disk Tables.manifest_path
     = Raise (ValueError "No columns to parse from file")
  /\ verify_download Tables.empty_manifest_disk Tables.manifest_path "data/gdc"
     = Raise (ValueError "No columns to parse from file").
Proof. repeat split. Qed.

(** ** Lines and text *)

Lemma string_app_assoc (a b c : string) : ((a ++ b) ++ c = a ++ (b ++ c))%string.
Proof.
  induction a as [ | ch a IH]; [reflexivity | ].
  simpl. rewrite IH. reflexivity.
Qed.

Lemma string_app_empty_r (a : string) : (a ++ "" = a)%string.
Proof.
  induction a as [ | ch a IH]; [reflexivity | ].
  simpl. rewrite IH. reflexivity.
Qed.

Lemma list_ascii_of_string_app (a b : string) :
  list_ascii_of_string (a ++ b)
  = (list_ascii_of_string a ++ list_ascii_of_string b)%list.
Proof.
  induction a as [ | ch a IH]; [reflexivity | ].
  simpl. rewrite IH. reflexivity.
Qed.

Lemma write_lines_text (lines : list string) :
  forall output, write_lines output lines = (output ++ lines_text lines)%string.
Proof.
  unfold write_lines.
  induction lines as [ | line rest IH]; intros output; simpl.
  - symmetry. apply string_app_empty_r.
  - rewrite IH. rewrite !string_app_assoc. reflexivity.
Qed.

Lemma lines_text_app (l1 l2 : list string) :
  lines_text (l1 ++ l2) = (lines_text l1 ++ lines_text l2)%string.
Proof.
  induction l1 as [ | line rest IH]; [reflexivity | ].
  simpl. rewrite IH. rewrite !string_app_assoc. reflexivity.
Qed.

Lemma no_linebreak_empty : no_linebreak "".
Proof. constructor. Qed.

Lemma no_linebreak_snoc (line : string) (c : ascii) :
  no_linebreak line -> is_linebreak c = false ->
  no_linebreak (line ++ String c "").
Proof.
  unfold no_linebreak. intros Hline Hc. rewrite list_ascii_of_string_app.
  apply Forall_app. split; [exact Hline | ]. repeat constructor. exact Hc.
Qed.

(** No line of [splitlines] holds a line boundary. *)
Lemma splitlines_from_no_linebreak (n : nat) :
  forall s line,
    (String.length s <= n)%nat -> no_linebreak line ->
    Forall no_linebreak (splitlines_from line s).
Proof.
  induction n as [ | n IH]; intros s line Hlen Hline.
  - destruct s; [ | simpl in Hlen; lia].
    simpl. destruct (line =? "")%string; repeat constructor; exact Hline.
  - destruct s as [ | c s'].
    + simpl. destruct (line =? "")%string; repeat constructor; exact Hline.
    + simpl in Hlen. cbn [splitlines_from].
      destruct (is_linebreak c) eqn:Hc.
      * constructor; [exact Hline | ].
        destruct s' as [ | c' s''].
        -- apply IH; [simpl; lia | apply no_linebreak_empty].
        -- destruct (is_CR c && is_LF c').
           ++ apply IH; [simpl in Hlen; lia | apply no_linebreak_empty].
           ++ apply IH; [lia | apply no_linebreak_empty].
      * apply IH; [lia | ]. apply no_linebreak_snoc; assumption.
Qed.

Lemma splitlines_no_linebreak (s : string) : Forall no_linebreak (splitlines s).
Proof.
  apply (splitlines_from_no_linebreak (String.length s));
    [lia | apply no_linebreak_empty].
Qed.

Lemma Forall_tl {A : Type} (P : A -> Prop) (l : list A) :
  Forall P l -> Forall P (tl l).
Proof. intros Hl. destruct Hl; [constructor | assumption]. Qed.

Lemma kept_lines_no_linebreak (texts : Z -> string) (pages : Z) :
  Forall no_linebreak (kept_lines texts pages).
Proof.
  unfold kept_lines. apply Forall_app. split; [apply splitlines_no_linebreak | ].
  apply Forall_flat_map. apply Forall_forall. intros i _.
  apply Forall_tl, splitlines_no_linebreak.
Qed.

(** ** Paths *)

Lemma ends_with_slash_app (a b : string) :
  b <> "" -> ends_with_slash (a ++ b) = ends_with_slash b.
Proof.
  intros Hb. induction a as [ | c a IH]; [reflexivity | ].
  cbn [append ends_with_slash]. rewrite <- IH.
  destruct (a ++ b)%string eqn:Hab; [ | reflexivity].
  destruct a; [simpl in Hab; congruence | discriminate Hab].
Qed.

(** For a data directory, an id and a file name without leading or trailing
    slashes the joined path is the three parts with a slash between them. *)
Lemma os_path_join_plain (data_dir id filename : string) :
  data_dir <> "" -> ends_with_slash data_dir = false ->
  id <> "" -> starts_with_slash id = false -> ends_with_slash id = false ->
  starts_with_slash filename = false ->
  os_path_join data_dir [id; filename]
  = (data_dir ++ "/" ++ id ++ "/" ++ filename)%string.
Proof.
  intros Hdir Hdir_end Hid Hid_start Hid_end Hname.
  unfold os_path_join. cbn [fold_left].
  rewrite Hid_start, Hname, Hdir_end.
  replace (data_dir =? "")%string with false
    by (symmetry; apply String.eqb_neq; exact Hdir).
  cbn [orb].
  replace (data_dir ++ "/" ++ id =? "")%string with false
    by (symmetry; apply String.eqb_neq; destruct data_dir; [congruence | discriminate]).
  cbn [orb].
  change (data_dir ++ "/" ++ id)%string with (data_dir ++ ("/" ++ id))%string.
  rewrite ends_with_slash_app by discriminate.
  change ("/" ++ id)%string with (String "/" id).
  assert (Hslash : ends_with_slash (String "/" id) = false).
  { destruct id; [congruence | exact Hid_end]. }
  rewrite Hslash. rewrite !string_app_assoc. reflexivity.
Qed.

(** ** Page indices *)

Lemma np_arange_pos (pages : Z) :
  1 <= pages -> np_arange pages = 0 :: later_pages pages.
Proof.
  intros Hp. unfold np_arange, later_pages.
  replace (Z.to_nat pages) with (S (Z.to_nat pages - 1)) at 1 by lia.
  reflexivity.
Qed.

Lemma later_pages_range (pages i : Z) :
  In i (later_pages pages) -> 1 <= i < pages.
Proof.
  unfold later_pages. intros Hin. apply in_map_iff in Hin.
  destruct Hin as [k [<- Hk]]. apply in_seq in Hk. lia.
Qed.

Section Paginator.
Variable W : Server.
Variables (project_name : pyval) (size : Z) (kwargs : list (string * pyval)).
Variable texts : Z -> string.

(** The loop over pages after the first: each loses its first line. *)
Lemma manifest_loop_later (pages : list Z) :
  (forall i, In i pages ->
             0 < i
             /\ _get_manifest_once W project_name size i kwargs = Ok (texts i)
             /\ splitlines (texts i) <> []) ->
  forall output,
    manifest_loop W project_name size kwargs pages output
    = Ok (output
          ++ lines_text (flat_map (fun i => tl (splitlines (texts i))) pages))%string.
Proof.
  induction pages as [ | page rest IH]; intros Hpages output.
  - simpl. rewrite string_app_empty_r. reflexivity.
  - destruct (Hpages page (or_introl eq_refl)) as [Hpos [Hget Hne]].
    cbn [manifest_loop]. rewrite Hget. cbn [bind].
    replace (page >? 0) with true by (symmetry; apply Z.gtb_lt; lia).
    destruct (splitlines (texts page)) as [ | first others] eqn:Hlines;
      [congruence | ].
    cbn [del_first bind].
    rewrite IH by (intros i Hi; apply Hpages; right; exact Hi).
    rewrite write_lines_text. cbn [flat_map tl]. rewrite Hlines. cbn [tl].
    rewrite lines_text_app, string_app_assoc. reflexivity.
Qed.

(** A run with a given page count of at least 1. *)
Lemma get_manifest_given_pages (pages : Z) :
  1 <= pages ->
  (forall i, 0 <= i < pages ->
             _get_manifest_once W project_name size i kwargs = Ok (texts i)) ->
  (forall i, 1 <= i < pages -> splitlines (texts i) <> []) ->
  get_manifest W project_name size (Some pages) kwargs
  = Ok (lines_text (kept_lines texts pages)).
Proof.
  intros Hp Hget Hne. unfold get_manifest.
  replace (pages =? 0) with false by (symmetry; apply Z.eqb_neq; lia).
  cbn [bind]. rewrite (np_arange_pos pages Hp). cbn [manifest_loop].
  rewrite (Hget 0) by lia. cbn [bind].
  replace (0 >? 0) with false by reflexivity. cbn [bind].
  rewrite manifest_loop_later.
  - rewrite write_lines_text. unfold kept_lines. rewrite lines_text_app.
    reflexivity.
  - intros i Hi. apply later_pages_range in Hi.
    repeat split; [lia | apply Hget; lia | apply Hne; lia].
Qed.

End Paginator.

(** C1: with a page count of at least 1, every page fetched and every later
    page holding at least its header line, [get_manifest] returns the lines
    of page 0 followed, page by page and in order, by the lines of each later
    page without its first line; each line is followed by one newline and
    holds no line boundary itself.  With 3 pages of a header and 2 data rows
    the result is the header of page 0 and the 6 data rows. *)
Theorem get_manifest_keeps_header_once
    (W : Server) (project_name : pyval) (size pages : Z)
    (kwargs : list (string * pyval)) (texts : Z -> string) :
  1 <= pages ->
  (forall i, 0 <= i < pages ->
             _get_manifest_once W project_name size i kwargs = Ok (texts i)) ->
  (forall i, 1 <= i < pages -> splitlines (texts i) <> []) ->
  get_manifest W project_name size (Some pages) kwargs
  = Ok (lines_text (splitlines (texts 0)
                    ++ flat_map (fun i => tl (splitlines (texts i)))
                         (later_pages pages)))
  /\ Forall no_linebreak (splitlines (texts 0)
                          ++ flat_map (fun i => tl (splitlines (texts i)))
                               (later_pages pages))
  /\ (pages = 3 ->
      forall header row1 row2 : Z -> string,
        (forall i, 0 <= i < 3 -> splitlines (texts i) = [header i; row1 i; row2 i]) ->
        get_manifest W project_name size (Some pages) kwargs
        = Ok (lines_text [header 0; row1 0; row2 0; row1 1; row2 1; row1 2; row2 2])).
Proof.
  intros Hp Hget Hne.
  pose proof (get_manifest_given_pages W project_name size kwargs texts pages
                Hp Hget Hne) as Hrun.
  unfold kept_lines in Hrun.
  split; [exact Hrun | ].
  split; [apply (kept_lines_no_linebreak texts pages) | ].
  intros -> header row1 row2 Hrows. rewrite Hrun.
  change (later_pages 3) with [1; 2]. cbn [flat_map].
  rewrite (Hrows 0), (Hrows 1), (Hrows 2) by lia. reflexivity.
Qed.

Lemma mock_pages_fetched (i : Z) :
  0 <= i < 3 ->
  _get_manifest_once Mock.server (PStr "TCGA-BLCA") 2 i Mock.clinical
  = Ok (Mock.page i).
Proof.
  intros Hi.
  assert (Hcases : i = 0 \/ i = 1 \/ i = 2) by lia.
  destruct Hcases as [-> | [-> | ->]]; reflexivity.
Defined.

Lemma mock_pages_nonempty (i : Z) :
  1 <= i < 3 -> splitlines (Mock.page i) <> [].
Proof.
  intros Hi.
  assert (Hcases : i = 1 \/ i = 2) by lia.
  destruct Hcases as [-> | ->]; discriminate.
Defined.

Lemma get_manifest_keeps_header_once_witness :
  get_manifest Mock.server (PStr "TCGA-BLCA") 2 (Some 3) Mock.clinical
  = Ok (lines_text [Mock.header;
                    Mock.data_row "u1" "a.xml"; Mock.data_row "u2" "b.xml";
                    Mock.data_row "u3" "c.xml"; Mock.data_row "u4" "d.xml";
                    Mock.data_row "u5" "e.xml"; Mock.data_row "u6" "f.xml"]).
Proof.
  exact (proj1 (get_manifest_keeps_header_once Mock.server (PStr "TCGA-BLCA") 2 3
                  Mock.clinical Mock.page ltac:(lia)
                  mock_pages_fetched mock_pages_nonempty)).
Defined.

(** A later page with no line at all stops the run with IndexError. *)
Lemma manifest_loop_empty_later_page (W : Server) (project_name : pyval)
    (size page : Z) (kwargs : list (string * pyval)) (rest : list Z)
    (output : string) :
  0 < page ->
  _get_manifest_once W project_name size page kwargs = Ok "" ->
  manifest_loop W project_name size kwargs (page :: rest) output = Raise IndexError.
Proof.
  intros Hpos Hget. cbn [manifest_loop]. rewrite Hget. cbn [bind].
  replace (page >? 0) with true by (symmetry; apply Z.gtb_lt; lia).
  reflexivity.
Qed.

(** ** Downloader *)

Section DownloaderFacts.
Variable W : Server.
Variable H : Host.

Lemma mkdir_loop_invocations (dir_names : list string) :
  forall sub_dir st,
    invocations (snd (mkdir_loop H sub_dir dir_names st)) = invocations st.
Proof.
  induction dir_names as [ | dir_name rest IH]; intros sub_dir st.
  - reflexivity.
  - cbn [mkdir_loop]. unfold bindM, exists_M, lift. cbn [fst snd].
    destruct (negb (path_exists (disk st) (os_path_join sub_dir [dir_name]))).
    + unfold mkdir.
      destruct (os_mkdir H (os_path_join sub_dir [dir_name]) (disk st)) as [d | e].
      * rewrite IH. reflexivity.
      * reflexivity.
    + unfold ret. rewrite IH. reflexivity.
Qed.

Lemma mkdir_if_not_exists_invocations (dir : string) (st : State) :
  invocations (snd (_mkdir_if_not_exists H dir st)) = invocations st.
Proof.
  unfold _mkdir_if_not_exists, bindM, exists_M, lift.
  destruct (negb (path_exists (disk st) dir)).
  - destruct (os_path_split dir) as [head tail]. apply mkdir_loop_invocations.
  - reflexivity.
Qed.

(** [subprocess.check_call] starts the process once and never returns a
    status other than 0. *)
Lemma subprocess_check_call_spec (args : list string) (cwd : string)
    (st : State) :
  invocations (snd (subprocess_check_call H args cwd st))
  = (invocations st ++ [(args, cwd)])%list
  /\ (forall status, fst (subprocess_check_call H args cwd st) = Ok status ->
                     status = 0)
  /\ (forall status, fst (run_process H args cwd (disk st)) = Ok status ->
                     status <> 0 ->
                     fst (subprocess_check_call H args cwd st)
                     = Raise (CalledProcessError status)).
Proof.
  unfold subprocess_check_call, subprocess_call, bindM.
  destruct (run_process H args cwd (disk st)) as [[status | e] d]; cbn [fst snd].
  - destruct (status =? 0) eqn:Hs; cbn [negb];
      unfold ret, raiseM; cbn [fst snd].
    + repeat split.
      * intros s' Hs'. injection Hs' as <-. reflexivity.
      * intros s' Hs' Hne. injection Hs' as <-.
        apply Z.eqb_eq in Hs. contradiction.
    + repeat split.
      * intros s' Hs'. discriminate Hs'.
      * intros s' Hs' _. injection Hs' as <-. reflexivity.
  - repeat split; intros s' Hs'; discriminate Hs'.
Qed.

End DownloaderFacts.

(** In every run the client is started at most once, with the download
    command in the data directory: no run starts it a second time. *)
Lemma download_files_invocations (W : Server) (H : Host)
    (project_name data_category : pyval) (page_size : Z)
    (max_pages : option Z) (data_dir : string)
    (kwargs : list (string * pyval)) (st st' : State) (r : result bool) :
  _download_files W H project_name data_category page_size max_pages data_dir
    kwargs st = (r, st') ->
  invocations st' = invocations st
  \/ invocations st'
     = (invocations st ++ [(download_command (tmp_name H), data_dir)])%list.
Proof.
  intros Hrun.
  unfold _download_files in Hrun. unfold bindM at 1 in Hrun.
  pose proof (mkdir_if_not_exists_invocations H data_dir st) as Hmk.
  destruct (_mkdir_if_not_exists H data_dir st) as [[u | e] st1]; cbn [snd] in Hmk;
    [ | injection Hrun as _ <-; left; exact Hmk].
  rewrite <- Hmk. clear Hmk.
  unfold bindM at 1 in Hrun. unfold lift at 1 in Hrun.
  destruct (get_manifest W project_name page_size max_pages
              (("data_category", data_category) :: kwargs)) as [contents | e];
    [ | injection Hrun as _ <-; left; reflexivity].
  unfold bindM, try_finally, modify_disk, lift, subprocess_check_call,
    subprocess_call, bindM, ret, raiseM, set_disk in Hrun.
  cbn [disk invocations] in Hrun.
  destruct (run_process H _ data_dir _) as [[status | e] d];
    [ destruct (status =? 0); cbn [negb] in Hrun;
      [ rewrite Z.eqb_refl in Hrun; cbn [negb disk] in Hrun;
        destruct (verify_download d (tmp_name H) data_dir) | ] | ];
    cbn [disk invocations] in Hrun; injection Hrun as _ <-; right; reflexivity.
Qed.

(** C3, at an input where the code and the claim differ: the client exits
    with status 1 on its first start; [check_call] raises
    CalledProcessError, the run ends with that exception and the client was
    started once, not twice.  With a client that exits with 0 the same run
    starts it once and returns True. *)
Theorem download_files_failed_client_not_retried :
  fst (_download_files Mock.server (Mock.host 1) (PStr "TCGA-BLCA")
         (PStr "Clinical") 2 (Some 1) "data/gdc" [] (Mock.start Mock.full_disk))
  = Raise (CalledProcessError 1)
  /\ invocations
       (snd (_download_files Mock.server (Mock.host 1) (PStr "TCGA-BLCA")
               (PStr "Clinical") 2 (Some 1) "data/gdc" []
               (Mock.start Mock.full_disk)))
     = [(download_command "/tmp/tmpmanifest", "data/gdc")]
  /\ fst (_download_files Mock.server (Mock.host 0) (PStr "TCGA-BLCA")
            (PStr "Clinical") 2 (Some 1) "data/gdc" [] (Mock.start Mock.full_disk))
     = Ok true
  /\ count_invocations
       (snd (_download_files Mock.server (Mock.host 0) (PStr "TCGA-BLCA")
               (PStr "Clinical") 2 (Some 1) "data/gdc" []
               (Mock.start Mock.full_disk)))
     = 1%nat.
Proof. repeat split. Qed.

(** C9: a page count of 0 is read as no page count.  [get_manifest] with
    [pages=0] is [get_manifest] with [pages=None], and [_download_files]
    with [max_pages=0] is the run with [max_pages=None].  Once the filter is
    built, the first request is the one for the number of pages: its
    failure is the result, and its answer [n] is the number of pages the
    loop runs over, so that with [n >= 1] pages fetched the manifest holds
    the lines of all [n] pages and is not the text of zero iterations. *)
Theorem get_manifest_zero_pages_asks_server
    (W : Server) (project_name : pyval) (size : Z)
    (kwargs : list (string * pyval)) :
  get_manifest W project_name size (Some 0) kwargs
  = get_manifest W project_name size None kwargs
  /\ (forall H data_category data_dir st,
         _download_files W H project_name data_category size (Some 0) data_dir
           kwargs st
         = _download_files W H project_name data_category size None data_dir
             kwargs st)
  /\ (forall e,
         _construct_filter_parameters W project_name "files" kwargs = Raise e ->
         get_manifest W project_name size (Some 0) kwargs = Raise e)
  /\ (forall filt,
         _construct_filter_parameters W project_name "files" kwargs = Ok filt ->
         (forall e, pagination_pages W filt size = Raise e ->
                    get_manifest W project_name size (Some 0) kwargs = Raise e)
         /\ (forall n, pagination_pages W filt size = Ok n ->
                       get_manifest W project_name size (Some 0) kwargs
                       = manifest_loop W project_name size kwargs (np_arange n) "")
         /\ (forall n texts,
                pagination_pages W filt size = Ok n ->
                1 <= n ->
                (forall i, 0 <= i < n ->
                           _get_manifest_once W project_name size i kwargs
                           = Ok (texts i)) ->
                (forall i, 1 <= i < n -> splitlines (texts i) <> []) ->
                get_manifest W project_name size (Some 0) kwargs
                = Ok (lines_text
                        (splitlines (texts 0)
                         ++ flat_map (fun i => tl (splitlines (texts i)))
                              (later_pages n))))).
Proof.
  split; [reflexivity | ]. split; [reflexivity | ]. split.
  - intros e He. unfold get_manifest, _get_num_pages, _construct_parameters.
    cbn [Z.eqb]. rewrite He. reflexivity.
  - intros filt Hfilt.
    assert (Hasked : get_manifest W project_name size (Some 0) kwargs
                     = bind (pagination_pages W filt size)
                         (fun n => manifest_loop W project_name size kwargs
                                     (np_arange n) "")).
    { unfold get_manifest, _get_num_pages, _construct_parameters.
      cbn [Z.eqb]. rewrite Hfilt. reflexivity. }
    split; [ | split].
    + intros e He. rewrite Hasked, He. reflexivity.
    + intros n Hn. rewrite Hasked, Hn. reflexivity.
    + intros n texts Hn Hpos Hget Hne. rewrite Hasked, Hn. cbn [bind].
      pose proof (get_manifest_given_pages W project_name size kwargs texts n
                    Hpos Hget Hne) as Hrun.
      unfold get_manifest in Hrun.
      replace (n =? 0) with false in Hrun by (symmetry; apply Z.eqb_neq; lia).
      exact Hrun.
Qed.

Lemma get_manifest_zero_pages_asks_server_witness :
  get_manifest Mock.server (PStr "TCGA-BLCA") 2 (Some 0) Mock.clinical
  = Ok (lines_text [Mock.header;
                    Mock.data_row "u1" "a.xml"; Mock.data_row "u2" "b.xml";
                    Mock.data_row "u3" "c.xml"; Mock.data_row "u4" "d.xml";
                    Mock.data_row "u5" "e.xml"; Mock.data_row "u6" "f.xml"]).
Proof.
  exact (proj2 (proj2
           (proj2 (proj2 (proj2
              (get_manifest_zero_pages_asks_server Mock.server (PStr "TCGA-BLCA")
                 2 Mock.clinical)))
              (FAnd [FIn "cases.project.project_id" (PList [PStr "TCGA-BLCA"]);
                     FIn "files.data_category" (PList [PStr "Clinical"])])
              eq_refl))
           3 Mock.page eq_refl ltac:(lia) mock_pages_fetched mock_pages_nonempty).
Defined.

(** * Further properties of the code *)

(** ** Occurrences of a string in another *)

Lemma prefix_app (sub s : string) :
  prefix sub s = true <-> exists post, s = (sub ++ post)%string.
Proof.
  revert s. induction sub as [ | a sub IH]; intros s.
  - split; [intros _; exists s; reflexivity | intros _; destruct s; reflexivity].
  - destruct s as [ | b s]; simpl.
    + split; [discriminate | intros [post Hpost]; discriminate Hpost].
    + destruct (ascii_dec a b) as [-> | Hne].
      * rewrite IH. split; intros [post Hpost]; exists post.
        -- rewrite Hpost. reflexivity.
        -- injection Hpost as Hpost. exact Hpost.
      * split; [discriminate | ]. intros [post Hpost].
        injection Hpost as Hb _. congruence.
Qed.

(** [find_from] gives the offset of the first occurrence, or -1 when there is
    none. *)
Lemma find_from_spec (sub s : string) :
  forall i,
    (find_from i sub s = -1
     /\ forall pre post, s <> (pre ++ sub ++ post)%string)
    \/ (exists pre post,
          s = (pre ++ sub ++ post)%string
          /\ find_from i sub s = i + Z.of_nat (String.length pre)
          /\ forall pre' post', s = (pre' ++ sub ++ post')%string ->
                                (String.length pre <= String.length pre')%nat).
Proof.
  induction s as [ | c s IH]; intros i.
  - destruct sub as [ | a sub].
    + right. exists "", "". simpl. repeat split; [f_equal; lia | intros; lia].
    + left. split; [reflexivity | ].
      intros [ | ? ?] post Hocc; discriminate Hocc.
  - destruct (prefix sub (String c s)) eqn:Hp.
    + right. apply prefix_app in Hp. destruct Hp as [post Hpost].
      exists "", post. repeat split.
      * exact Hpost.
      * assert (Hp : prefix sub (String c s) = true)
          by (apply prefix_app; exists post; exact Hpost).
        destruct sub; simpl in *; [ | rewrite Hp]; simpl; lia.
      * intros; simpl; lia.
    + assert (Hstep : find_from i sub (String c s) = find_from (i + 1) sub s).
      { destruct sub; [discriminate Hp | ].
        cbn [find_from]. rewrite Hp. reflexivity. }
      assert (Hnot_first : forall post, String c s <> (sub ++ post)%string).
      { intros post Hpost.
        assert (Ht : prefix sub (String c s) = true)
          by (apply prefix_app; exists post; exact Hpost).
        congruence. }
      destruct (IH (i + 1)) as [[Hnone Hno] | [pre [post [Hocc [Hfind Hmin]]]]].
      * left. split; [rewrite Hstep; exact Hnone | ].
        intros [ | c' pre] post Hocc.
        -- apply (Hnot_first post). exact Hocc.
        -- injection Hocc as _ Hocc. apply (Hno pre post). exact Hocc.
      * right. exists (String c pre), post. repeat split.
        -- simpl. rewrite Hocc. reflexivity.
        -- rewrite Hstep, Hfind. cbn [String.length]. lia.
        -- intros [ | c' pre'] post' Hocc'.
           ++ exfalso. apply (Hnot_first post'). exact Hocc'.
           ++ injection Hocc' as _ Hocc'. apply Hmin in Hocc'.
              cbn [String.length]. lia.
Qed.

(** [s.find(sub) > 0]: [sub] occurs in [s], and not at the start. *)
Lemma str_find_pos (s sub : string) :
  (str_find s sub >? 0) = true
  <-> prefix sub s = false
      /\ exists pre post, s = (pre ++ sub ++ post)%string.
Proof.
  unfold str_find. rewrite Z.gtb_lt.
  destruct (find_from_spec sub s 0)
    as [[Hnone Hno] | [pre [post [Hocc [Hfind Hmin]]]]].
  - rewrite Hnone. split; [lia | ].
    intros [_ [pre [post Hocc]]]. exfalso. apply (Hno pre post). exact Hocc.
  - rewrite Hfind. split.
    + intros Hpos. split; [ | exists pre, post; exact Hocc].
      destruct (prefix sub s) eqn:Hp; [ | reflexivity].
      apply prefix_app in Hp. destruct Hp as [post' Hpost'].
      specialize (Hmin "" post' Hpost'). simpl in Hmin. lia.
    + intros [Hp _]. destruct pre as [ | c pre]; [ | cbn [String.length]; lia].
      assert (Ht : prefix sub s = true)
        by (apply prefix_app; exists post; exact Hocc).
      congruence.
Qed.

(** ** Field validator *)

(** [_search_for_field] returns, in schema order, the fields in which the
    search string occurs without being their start; an error of the field
    listing is its error. *)
Theorem search_for_field_matches
    (W : Server) (search_string endpoint_name : string) (fields : list string) :
  _list_valid_fields W endpoint_name = Ok fields ->
  _search_for_field W search_string endpoint_name
  = Ok (filter (fun field => negb (prefix search_string field)
                             && (0 <=? str_find field search_string)) fields)
  /\ forall field,
       In field (filter (fun field => negb (prefix search_string field)
                                      && (0 <=? str_find field search_string))
                   fields)
       <-> In field fields
           /\ prefix search_string field = false
           /\ exists pre post, field = (pre ++ search_string ++ post)%string.
Proof.
  intros Hfields.
  assert (Hsame : forall field,
             (str_find field search_string >? 0)
             = negb (prefix search_string field)
               && (0 <=? str_find field search_string)).
  { intros field.
    destruct (prefix search_string field) eqn:Hp.
    - rewrite (str_find_prefix field search_string Hp). reflexivity.
    - cbn [negb andb].
      destruct (str_find field search_string >? 0) eqn:Hpos.
      + apply Z.gtb_lt in Hpos. symmetry. apply Z.leb_le. lia.
      + destruct (0 <=? str_find field search_string) eqn:Hle; [ | reflexivity].
        apply Z.leb_le in Hle.
        assert (Hzero : str_find field search_string = 0).
        { assert (Hn : ~ 0 < str_find field search_string).
          { intros Hlt. apply Z.gtb_lt in Hlt. congruence. }
          lia. }
        unfold str_find in Hzero.
        destruct (find_from_spec search_string field 0)
          as [[Hnone _] | [pre [post [Hocc [Hfind _]]]]]; [lia | ].
        destruct pre as [ | c pre]; [ | cbn [String.length] in Hfind; lia].
        assert (Ht : prefix search_string field = true)
          by (apply prefix_app; exists post; exact Hocc).
        congruence. }
  split.
  - unfold _search_for_field. rewrite Hfields. cbn [bind]. f_equal.
    apply filter_ext. exact Hsame.
  - intros field. rewrite filter_In, <- Hsame, str_find_pos. tauto.
Qed.

Lemma search_for_field_matches_witness :
  _search_for_field Mock.server "data_category" "files"
  = Ok ["files.data_category"; "files.analysis.input_files.data_category"].
Proof.
  exact (proj1 (search_for_field_matches Mock.server "data_category" "files"
                  Mock.fields eq_refl)).
Defined.

(** [_list_valid_fields] asks the server only for one of the four known
    endpoints; for any other name it raises the ValueError naming it,
    whatever the server would answer. *)
Theorem list_valid_fields_checks_endpoint (W : Server) (endpoint_name : string) :
  (In endpoint_name ["files"; "projects"; "cases"; "annotations"] ->
   _list_valid_fields W endpoint_name = mapping_keys W endpoint_name)
  /\ (~ In endpoint_name ["files"; "projects"; "cases"; "annotations"] ->
      _list_valid_fields W endpoint_name
      = Raise (ValueError ("At least one value given was invalid: "
                           ++ endpoint_name))).
Proof.
  unfold _list_valid_fields.
  change VALID_ENDPOINTS
    with (map PStr ["files"; "projects"; "cases"; "annotations"]).
  change (PList [PStr endpoint_name]) with (PList (map PStr [endpoint_name])).
  rewrite verify_data_list_strs by discriminate.
  cbn [forallb filter andb]. split.
  - intros Hin. rewrite py_in_str.
    assert (Hex : existsb (fun a => (a =? endpoint_name)%string)
                    ["files"; "projects"; "cases"; "annotations"] = true).
    { apply existsb_exists. exists endpoint_name. split; [exact Hin | ].
      apply String.eqb_refl. }
    rewrite Hex. reflexivity.
  - intros Hnot. rewrite (py_in_str_false endpoint_name _ Hnot). reflexivity.
Qed.

Lemma list_valid_fields_checks_endpoint_witness :
  _list_valid_fields Mock.server "files" = Ok Mock.fields
  /\ _list_valid_fields Mock.server "file"
     = Raise (ValueError "At least one value given was invalid: file").
Proof.
  split.
  - apply (proj1 (list_valid_fields_checks_endpoint Mock.server "files")).
    left. reflexivity.
  - apply (proj2 (list_valid_fields_checks_endpoint Mock.server "file")).
    simpl. intros [H | [H | [H | [H | []]]]]; discriminate H.
Defined.

(** With the schema listed and a non-empty name, [_verify_field_name]
    returns True exactly for the names of the schema, and raises the
    ValueError of an invalid field for every other name. *)
Theorem verify_field_name_iff_in_schema
    (W : Server) (field_name endpoint_name : string) (fields : list string) :
  _list_valid_fields W endpoint_name = Ok fields ->
  field_name <> "" ->
  (_verify_field_name W field_name endpoint_name = Ok true <-> In field_name fields)
  /\ (~ In field_name fields ->
      exists matches,
        _search_for_field W field_name endpoint_name = Ok matches
        /\ _verify_field_name W field_name endpoint_name
           = Raise (ValueError (invalid_field_message field_name matches))).
Proof.
  intros Hfields Hne.
  assert (Hvalid : In field_name fields ->
                   _verify_field_name W field_name endpoint_name = Ok true).
  { intros Hin. unfold _verify_field_name. rewrite Hfields. cbn [bind].
    unfold _verify_data_list, _convert_to_list.
    assert (Ht : truthy (PStr field_name) = true).
    { simpl. apply negb_true_iff, String.eqb_neq, Hne. }
    rewrite Ht. cbn [negb bind py_iter forallb].
    rewrite py_in_str.
    assert (Hex : existsb (fun a => (a =? field_name)%string) fields = true).
    { apply existsb_exists. exists field_name. split; [exact Hin | ].
      apply String.eqb_refl. }
    rewrite Hex. reflexivity. }
  assert (Hinvalid : ~ In field_name fields ->
                     _verify_field_name W field_name endpoint_name
                     = Raise (ValueError
                                (invalid_field_message field_name
                                   (filter (fun field =>
                                              str_find field field_name >? 0)
                                      fields)))).
  { intros Hnot. apply verify_field_name_invalid; assumption. }
  split.
  - split; [ | exact Hvalid].
    intros Hok. destruct (in_dec string_dec field_name fields) as [Hin | Hnot];
      [exact Hin | ].
    rewrite (Hinvalid Hnot) in Hok. discriminate Hok.
  - intros Hnot.
    exists (filter (fun field => str_find field field_name >? 0) fields). split.
    + unfold _search_for_field. rewrite Hfields. reflexivity.
    + exact (Hinvalid Hnot).
Qed.

Lemma verify_field_name_iff_in_schema_witness :
  _verify_field_name Mock.server "files.file_name" "files" = Ok true
  <-> In "files.file_name" Mock.fields.
Proof.
  apply (proj1 (verify_field_name_iff_in_schema Mock.server "files.file_name"
                  "files" Mock.fields eq_refl ltac:(discriminate))).
Defined.

(** The empty field name is not reported as an invalid field: it is
    normalised to None and the membership test raises TypeError. *)
Theorem verify_field_name_empty_name
    (W : Server) (endpoint_name : string) (fields : list string) :
  _list_valid_fields W endpoint_name = Ok fields ->
  _verify_field_name W "" endpoint_name = Raise TypeError.
Proof.
  intros Hfields. unfold _verify_field_name. rewrite Hfields. reflexivity.
Qed.

Lemma verify_field_name_empty_name_witness :
  _verify_field_name Mock.server "" "files" = Raise TypeError.
Proof.
  exact (verify_field_name_empty_name Mock.server "files" Mock.fields eq_refl).
Defined.

(** When the field listing fails, with an unknown endpoint or a failed
    request, [_verify_field_name] raises that same exception: the handler
    for ValueError lists the fields again and fails the same way, so no
    invalid-field message is produced. *)
Theorem verify_field_name_listing_error
    (W : Server) (field_name endpoint_name : string) (e : exn) :
  _list_valid_fields W endpoint_name = Raise e ->
  _verify_field_name W field_name endpoint_name = Raise e.
Proof.
  intros Hfields. unfold _verify_field_name, _search_for_field.
  rewrite Hfields. cbn [bind]. destruct e; reflexivity.
Qed.

Lemma verify_field_name_listing_error_witness :
  _verify_field_name Mock.server "files.data_category" "file"
  = Raise (ValueError "At least one value given was invalid: file").
Proof.
  exact (verify_field_name_listing_error Mock.server "files.data_category" "file"
           (ValueError "At least one value given was invalid: file") eq_refl).
Defined.

(** ** Stripping the endpoint from a field name *)

Lemma replace_skip_app (a old new s : string) :
  replace_skip (String.length a) old new (a ++ s) = replace_skip O old new s.
Proof.
  induction a as [ | c a IH]; [reflexivity | ].
  cbn [String.length append replace_skip]. exact IH.
Qed.

Lemma str_replace_leading (old s : string) :
  old <> "" -> str_replace (old ++ s) old "" = str_replace s old "".
Proof.
  intros Hold. destruct old as [ | c old]; [congruence | ].
  unfold str_replace. cbn [append replace_skip].
  assert (Hp : prefix (String c old) (String c (old ++ s)) = true).
  { apply prefix_app. exists s. reflexivity. }
  rewrite Hp. cbn [String.length Nat.pred append]. apply replace_skip_app.
Qed.

(** A field name given with the endpoint in front and the same name given
    without it ask the server for the same facet. *)
Theorem list_valid_options_strips_endpoint
    (W : Server) (field endpoint_name : string) (project_name : pyval) :
  _list_valid_options W (endpoint_name ++ "." ++ field) endpoint_name
    project_name true
  = _list_valid_options W field endpoint_name project_name true.
Proof.
  unfold _list_valid_options. f_equal.
  change (endpoint_name ++ "." ++ field)%string
    with (endpoint_name ++ ("." ++ field))%string.
  rewrite <- string_app_assoc. apply str_replace_leading.
  destruct endpoint_name; discriminate.
Qed.

(** ** Normalising and checking value lists *)

(** For a list, a tuple, a string or a falsy value [_convert_to_list]
    returns None (for the falsy ones) or a non-empty list: the list itself,
    the elements of the tuple in order, or the one-element list of the
    string. *)
Theorem convert_to_list_result_shape (x : pyval) :
  is_list x || is_tuple x || is_str x || negb (truthy x) = true ->
  exists y,
    _convert_to_list x = Ok y
    /\ ((truthy x = false /\ y = PNone)
        \/ exists l, l <> [] /\ y = PList l
                     /\ (x = PList l \/ x = PTuple l
                         \/ (is_str x = true /\ l = [x]))).
Proof.
  intros Hkind. unfold _convert_to_list.
  destruct (truthy x) eqn:Ht; cbn [negb].
  - destruct x as [ | b | n | s | l | l]; simpl in Hkind; try discriminate Hkind.
    + exists (PList [PStr s]). split; [reflexivity | ]. right.
      exists [PStr s]. repeat split; [discriminate | ]. right. right. auto.
    + exists (PList l). split; [reflexivity | ]. right.
      exists l. repeat split; [destruct l; [discriminate Ht | discriminate] | ].
      left. reflexivity.
    + exists (PList l). split; [reflexivity | ]. right.
      exists l. repeat split; [destruct l; [discriminate Ht | discriminate] | ].
      right. left. reflexivity.
  - exists PNone. split; [reflexivity | ]. left. auto.
Qed.

Lemma convert_to_list_result_shape_witness :
  exists y,
    _convert_to_list (PTuple [PStr "Clinical"; PStr "Biospecimen"]) = Ok y
    /\ ((truthy (PTuple [PStr "Clinical"; PStr "Biospecimen"]) = false
         /\ y = PNone)
        \/ exists l, l <> [] /\ y = PList l
                     /\ (PTuple [PStr "Clinical"; PStr "Biospecimen"] = PList l
                         \/ PTuple [PStr "Clinical"; PStr "Biospecimen"] = PTuple l
                         \/ (is_str (PTuple [PStr "Clinical"; PStr "Biospecimen"])
                             = true
                             /\ l = [PTuple [PStr "Clinical"; PStr "Biospecimen"]]))).
Proof.
  apply (convert_to_list_result_shape
           (PTuple [PStr "Clinical"; PStr "Biospecimen"])).
  reflexivity.
Defined.

(** True and every non-zero int are truthy and neither list nor string, so
    they reach [list(x)], which raises TypeError on a value that is not
    iterable. *)
Theorem convert_to_list_number_raises (n : Z) :
  n <> 0 ->
  _convert_to_list (PInt n) = Raise TypeError
  /\ _convert_to_list (PBool true) = Raise TypeError.
Proof.
  intros Hn. split; [ | reflexivity].
  unfold _convert_to_list. cbn [truthy].
  replace (n =? 0) with false by (symmetry; apply Z.eqb_neq; exact Hn).
  reflexivity.
Qed.

Lemma convert_to_list_number_raises_witness :
  _convert_to_list (PInt 5) = Raise TypeError
  /\ _convert_to_list (PBool true) = Raise TypeError.
Proof.
  apply (convert_to_list_number_raises 5). lia.
Defined.

Lemma as_strs_non_str (v : pyval) (l : list pyval) :
  In v l -> is_str v = false -> as_strs l = Raise TypeError.
Proof.
  intros Hin Hv. induction l as [ | a rest IH]; [destruct Hin | ].
  destruct Hin as [-> | Hin].
  - destruct v; try reflexivity. discriminate Hv.
  - destruct a; try reflexivity. cbn [as_strs]. rewrite (IH Hin). reflexivity.
Qed.

(** On a non-empty list [_verify_data_list] returns True exactly when every
    element is among the allowed values. *)
Theorem verify_data_list_true_iff
    (l allowed_values : list pyval) (message : string) :
  l <> [] ->
  (_verify_data_list (PList l) allowed_values message = Ok true
   <-> forall el, In el l -> py_in el allowed_values = true).
Proof.
  intros Hne. unfold _verify_data_list.
  rewrite (convert_to_list_nonempty_list l Hne). cbn [bind py_iter].
  destruct (forallb (fun el => py_in el allowed_values) l) eqn:Hall; cbn [negb].
  - rewrite forallb_forall in Hall. split; [intros _; exact Hall | reflexivity].
  - split.
    + intros Hok.
      destruct (py_join ", "
                  (filter (fun el => negb (py_in el allowed_values)) l));
        discriminate Hok.
    + intros Hforall. apply forallb_forall in Hforall. congruence.
Qed.

Lemma verify_data_list_true_iff_witness :
  _verify_data_list (PList [PStr "Clinical"]) [PStr "Clinical"; PStr "Biospecimen"]
    default_message = Ok true
  <-> forall el, In el [PStr "Clinical"] ->
                 py_in el [PStr "Clinical"; PStr "Biospecimen"] = true.
Proof.
  apply (verify_data_list_true_iff [PStr "Clinical"]
           [PStr "Clinical"; PStr "Biospecimen"] default_message).
  discriminate.
Defined.

(** A tuple is checked as the list of its elements, and a non-empty string
    as the one value it is, not character by character. *)
Theorem verify_data_list_normalises
    (allowed_values : list pyval) (message : string) :
  (forall l, _verify_data_list (PTuple l) allowed_values message
             = _verify_data_list (PList l) allowed_values message)
  /\ (forall s, s <> "" ->
                _verify_data_list (PStr s) allowed_values message
                = _verify_data_list (PList [PStr s]) allowed_values message).
Proof.
  split.
  - intros [ | a l]; reflexivity.
  - intros s Hs. unfold _verify_data_list, _convert_to_list.
    assert (Ht : truthy (PStr s) = true).
    { simpl. apply negb_true_iff, String.eqb_neq, Hs. }
    rewrite Ht. reflexivity.
Qed.

Lemma verify_data_list_normalises_witness :
  _verify_data_list (PStr "Clinical") [PStr "Clinical"] default_message
  = _verify_data_list (PList [PStr "Clinical"]) [PStr "Clinical"] default_message.
Proof.
  apply (proj2 (verify_data_list_normalises [PStr "Clinical"] default_message)
           "Clinical").
  discriminate.
Defined.

(** When a value outside the allowed ones is not a string, building the
    message fails: the result is TypeError, not the ValueError that lists the
    invalid values. *)
Theorem verify_data_list_non_string_invalid
    (l allowed_values : list pyval) (message : string) (v : pyval) :
  In v l -> py_in v allowed_values = false -> is_str v = false ->
  _verify_data_list (PList l) allowed_values message = Raise TypeError.
Proof.
  intros Hin Hbad Hstr.
  assert (Hne : l <> []) by (destruct l; [destruct Hin | discriminate]).
  unfold _verify_data_list.
  rewrite (convert_to_list_nonempty_list l Hne). cbn [bind py_iter].
  destruct (forallb (fun el => py_in el allowed_values) l) eqn:Hall.
  - rewrite forallb_forall in Hall. rewrite (Hall v Hin) in Hbad. discriminate.
  - cbn [negb]. unfold py_join.
    rewrite (as_strs_non_str v
               (filter (fun el => negb (py_in el allowed_values)) l)).
    + reflexivity.
    + apply filter_In. split; [exact Hin | ]. rewrite Hbad. reflexivity.
    + exact Hstr.
Qed.

Lemma verify_data_list_non_string_invalid_witness :
  _verify_data_list (PList [PStr "Clinical"; PInt 7]) [PStr "Clinical"]
    default_message = Raise TypeError.
Proof.
  apply (verify_data_list_non_string_invalid [PStr "Clinical"; PInt 7]
           [PStr "Clinical"] default_message (PInt 7)).
  - right. left. reflexivity.
  - reflexivity.
  - reflexivity.
Defined.

(** ** Filter builder *)

Lemma filter_loop_passes (W : Server) (endpoint_name : string)
    (kwargs : list (string * pyval)) (values : list pyval) :
  Forall2 (fun kv v =>
             _convert_to_list (snd kv) = Ok v
             /\ exists b, _verify_field_values W v
                            (endpoint_name ++ "." ++ fst kv) endpoint_name PNone
                          = Ok b) kwargs values ->
  forall content_filters,
    filter_loop W endpoint_name kwargs content_filters
    = Ok (content_filters
          ++ map (fun p => FIn (endpoint_name ++ "." ++ fst (fst p)) (snd p))
               (combine kwargs values))%list.
Proof.
  induction 1 as [ | [field x] v kwargs values [Hconv [b Hver]] _ IH];
    intros content_filters.
  - simpl. rewrite app_nil_r. reflexivity.
  - cbn [filter_loop]. cbn [fst snd] in Hconv, Hver.
    rewrite Hconv. cbn [bind]. rewrite Hver. cbn [bind].
    rewrite IH. rewrite <- app_assoc. reflexivity.
Qed.

Lemma filter_loop_first_failure (W : Server) (endpoint_name : string)
    (good rest : list (string * pyval))
    (values : list pyval) (field : string) (x : pyval) (e : exn) :
  Forall2 (fun kv v =>
             _convert_to_list (snd kv) = Ok v
             /\ exists b, _verify_field_values W v
                            (endpoint_name ++ "." ++ fst kv) endpoint_name PNone
                          = Ok b) good values ->
  (_convert_to_list x = Raise e
   \/ exists v, _convert_to_list x = Ok v
                /\ _verify_field_values W v (endpoint_name ++ "." ++ field)
                     endpoint_name PNone = Raise e) ->
  forall content_filters,
    filter_loop W endpoint_name (good ++ (field, x) :: rest) content_filters
    = Raise e.
Proof.
  intros Hgood Hbad.
  induction Hgood as [ | [field' x'] v' good values [Hconv [b Hver]] _ IH];
    intros content_filters.
  - cbn [app filter_loop].
    destruct Hbad as [Hraise | [v [Hconv Hver]]].
    + rewrite Hraise. reflexivity.
    + rewrite Hconv. cbn [bind]. rewrite Hver. reflexivity.
  - cbn [app filter_loop]. cbn [fst snd] in Hconv, Hver.
    rewrite Hconv. cbn [bind]. rewrite Hver. cbn [bind]. apply IH.
Qed.

(** When every constraint passes validation, the filter is the AND of the
    project leaf and one leaf per constraint, in the order of the keyword
    arguments, each with the endpoint in front of its field and its value
    normalised to a list. *)
Theorem construct_filter_leaves_in_order
    (W : Server) (project_name : pyval) (endpoint_name : string)
    (kwargs : list (string * pyval)) (values : list pyval) :
  Forall2 (fun kv v =>
             _convert_to_list (snd kv) = Ok v
             /\ exists b, _verify_field_values W v
                            (endpoint_name ++ "." ++ fst kv) endpoint_name PNone
                          = Ok b) kwargs values ->
  _construct_filter_parameters W project_name endpoint_name kwargs
  = Ok (FAnd (FIn "cases.project.project_id" (PList [project_name])
              :: map (fun p => FIn (endpoint_name ++ "." ++ fst (fst p)) (snd p))
                   (combine kwargs values))).
Proof.
  intros Hpass. unfold _construct_filter_parameters.
  rewrite (filter_loop_passes W endpoint_name kwargs values Hpass). reflexivity.
Qed.

Lemma construct_filter_leaves_in_order_witness :
  _construct_filter_parameters (Sample.server (Raise (HTTPError 500)))
    (PStr "TCGA-BLCA") "files"
    [("data_category", PTuple [PStr "Clinical"; PStr "Biospecimen"]);
     ("data_format", PStr "BCR XML")]
  = Ok (FAnd [FIn "cases.project.project_id" (PList [PStr "TCGA-BLCA"]);
              FIn "files.data_category" (PList [PStr "Clinical"; PStr "Biospecimen"]);
              FIn "files.data_format" (PList [PStr "BCR XML"])]).
Proof.
  apply (construct_filter_leaves_in_order (Sample.server (Raise (HTTPError 500)))
           (PStr "TCGA-BLCA") "files"
           [("data_category", PTuple [PStr "Clinical"; PStr "Biospecimen"]);
            ("data_format", PStr "BCR XML")]
           [PList [PStr "Clinical"; PStr "Biospecimen"]; PList [PStr "BCR XML"]]).
  repeat constructor; exists true; reflexivity.
Defined.

(** The builder stops at the first constraint that fails: after constraints
    that pass, the exception of normalising or validating the next one is
    the result, whatever follows it. *)
Theorem construct_filter_first_failure
    (W : Server) (project_name : pyval) (endpoint_name : string)
    (good rest : list (string * pyval)) (values : list pyval)
    (field : string) (x : pyval) (e : exn) :
  Forall2 (fun kv v =>
             _convert_to_list (snd kv) = Ok v
             /\ exists b, _verify_field_values W v
                            (endpoint_name ++ "." ++ fst kv) endpoint_name PNone
                          = Ok b) good values ->
  (_convert_to_list x = Raise e
   \/ exists v, _convert_to_list x = Ok v
                /\ _verify_field_values W v (endpoint_name ++ "." ++ field)
                     endpoint_name PNone = Raise e) ->
  _construct_filter_parameters W project_name endpoint_name
    (good ++ (field, x) :: rest) = Raise e.
Proof.
  intros Hgood Hbad. unfold _construct_filter_parameters.
  rewrite (filter_loop_first_failure W endpoint_name good rest values field x e
             Hgood Hbad).
  reflexivity.
Qed.

Lemma construct_filter_first_failure_witness :
  _construct_filter_parameters (Sample.server (Raise (HTTPError 500)))
    (PStr "TCGA-BLCA") "files"
    ([("data_category", PStr "Clinical")]
     ++ ("data_format", PList [PStr "PDF"; PStr "TXT"; PStr "SVS"])
        :: [("file_name", PInt 3)])
  = Raise (ValueError "At least one value given was invalid: PDF, SVS").
Proof.
  apply (construct_filter_first_failure (Sample.server (Raise (HTTPError 500)))
           (PStr "TCGA-BLCA") "files"
           [("data_category", PStr "Clinical")] [("file_name", PInt 3)]
           [PList [PStr "Clinical"]] "data_format"
           (PList [PStr "PDF"; PStr "TXT"; PStr "SVS"])).
  - repeat constructor. exists true. reflexivity.
  - right. exists (PList [PStr "PDF"; PStr "TXT"; PStr "SVS"]). split; reflexivity.
Defined.

(** ** Manifest paginator *)

(** Every index from 1 on falls into the window of exactly one page: the
    windows [start(page) .. start(page) + size - 1] of the pages 0, 1, 2, ...
    begin at 1, do not overlap and leave no gap. *)
Theorem compute_start_windows_partition (size n : Z) :
  1 <= size -> 1 <= n ->
  _compute_start_given_page 0 size = 1
  /\ exists page,
       0 <= page
       /\ _compute_start_given_page page size <= n
          < _compute_start_given_page (page + 1) size
       /\ forall q, 0 <= q ->
                    _compute_start_given_page q size <= n
                    < _compute_start_given_page (q + 1) size ->
                    q = page.
Proof.
  intros Hsize Hn. unfold _compute_start_given_page. split; [lia | ].
  exists ((n - 1) / size).
  pose proof (Z.div_mod (n - 1) size ltac:(lia)) as Hdm.
  pose proof (Z.mod_pos_bound (n - 1) size ltac:(lia)) as Hmod.
  pose proof (Z.div_pos (n - 1) size ltac:(lia) ltac:(lia)) as Hdiv.
  repeat split; [exact Hdiv | nia | nia | ].
  intros q Hq [Hlo Hhi].
  apply (Z.div_unique (n - 1) size q (n - 1 - size * q)); lia.
Qed.

Lemma compute_start_windows_partition_witness :
  _compute_start_given_page 0 5 = 1
  /\ exists page,
       0 <= page
       /\ _compute_start_given_page page 5 <= 12
          < _compute_start_given_page (page + 1) 5
       /\ forall q, 0 <= q ->
                    _compute_start_given_page q 5 <= 12
                    < _compute_start_given_page (q + 1) 5 ->
                    q = page.
Proof.
  apply (compute_start_windows_partition 5 12); lia.
Defined.

Lemma manifest_loop_app (W : Server) (project_name : pyval) (size : Z)
    (kwargs : list (string * pyval)) (pages later : list Z) :
  forall output,
    manifest_loop W project_name size kwargs (pages ++ later) output
    = bind (manifest_loop W project_name size kwargs pages output)
        (fun out => manifest_loop W project_name size kwargs later out).
Proof.
  induction pages as [ | page pages IH]; intros output; [reflexivity | ].
  cbn [app manifest_loop].
  destruct (_get_manifest_once W project_name size page kwargs) as [text | e];
    [ | reflexivity].
  cbn [bind].
  destruct (if page >? 0 then del_first (splitlines text) else Ok (splitlines text))
    as [response_text | e]; [ | reflexivity].
  cbn [bind]. apply IH.
Qed.

Lemma np_arange_split (pages k : Z) :
  0 <= k < pages ->
  exists later, np_arange pages = (np_arange k ++ k :: later)%list.
Proof.
  intros Hk. unfold np_arange.
  exists (map Z.of_nat (seq (S (Z.to_nat k)) (Z.to_nat pages - Z.to_nat k - 1))).
  replace (Z.to_nat pages)
    with (Z.to_nat k + S (Z.to_nat pages - Z.to_nat k - 1))%nat at 1 by lia.
  rewrite seq_app, map_app. cbn [seq map plus]. rewrite Z2Nat.id by lia.
  reflexivity.
Qed.

Lemma np_arange_nonpositive (pages : Z) : pages <= 0 -> np_arange pages = [].
Proof.
  intros Hp. unfold np_arange. replace (Z.to_nat pages) with O by lia. reflexivity.
Qed.

(** The pages before page [k] are assembled when each is fetched and each
    later one has a first line. *)
Lemma manifest_loop_before (W : Server) (project_name : pyval) (size : Z)
    (kwargs : list (string * pyval)) (texts : Z -> string) (k : Z) :
  0 <= k ->
  (forall i, 0 <= i < k ->
             _get_manifest_once W project_name size i kwargs = Ok (texts i)) ->
  (forall i, 1 <= i < k -> splitlines (texts i) <> []) ->
  exists out, manifest_loop W project_name size kwargs (np_arange k) "" = Ok out.
Proof.
  intros Hk Hget Hne.
  destruct (Z.eq_dec k 0) as [-> | Hpos].
  - exists "". reflexivity.
  - pose proof (get_manifest_given_pages W project_name size kwargs texts k
                  ltac:(lia) Hget Hne) as Hrun.
    unfold get_manifest in Hrun.
    replace (k =? 0) with false in Hrun by (symmetry; apply Z.eqb_neq; exact Hpos).
    cbn [bind] in Hrun. eexists. exact Hrun.
Qed.

(** A request that fails at page [k], after pages that were assembled, ends
    the run with that exception: no part of the manifest is returned. *)
Theorem get_manifest_fetch_failure
    (W : Server) (project_name : pyval) (size pages k : Z)
    (kwargs : list (string * pyval)) (texts : Z -> string) (e : exn) :
  0 <= k < pages ->
  (forall i, 0 <= i < k ->
             _get_manifest_once W project_name size i kwargs = Ok (texts i)) ->
  (forall i, 1 <= i < k -> splitlines (texts i) <> []) ->
  _get_manifest_once W project_name size k kwargs = Raise e ->
  get_manifest W project_name size (Some pages) kwargs = Raise e.
Proof.
  intros Hk Hget Hne Hfail. unfold get_manifest.
  replace (pages =? 0) with false by (symmetry; apply Z.eqb_neq; lia).
  cbn [bind].
  destruct (np_arange_split pages k Hk) as [later ->].
  rewrite manifest_loop_app.
  destruct (manifest_loop_before W project_name size kwargs texts k
              ltac:(lia) Hget Hne) as [out ->].
  cbn [bind manifest_loop]. rewrite Hfail. reflexivity.
Qed.

Lemma sample_first_page (later_page : result string) (i : Z) :
  0 <= i < 1 ->
  _get_manifest_once (Sample.server later_page) (PStr "TCGA-BLCA") 2 i
    Mock.clinical = Ok (Mock.page i).
Proof.
  intros Hi. assert (Hz : i = 0) by lia. subst i. reflexivity.
Defined.

Lemma sample_no_later_page (i : Z) :
  1 <= i < 1 -> splitlines (Mock.page i) <> [].
Proof. intros Hi. exfalso. lia. Defined.

Lemma get_manifest_fetch_failure_witness :
  get_manifest (Sample.server (Raise (HTTPError 500))) (PStr "TCGA-BLCA") 2
    (Some 3) Mock.clinical = Raise (HTTPError 500).
Proof.
  apply (get_manifest_fetch_failure (Sample.server (Raise (HTTPError 500)))
           (PStr "TCGA-BLCA") 2 3 1 Mock.clinical Mock.page (HTTPError 500)).
  - lia.
  - apply sample_first_page.
  - apply sample_no_later_page.
  - reflexivity.
Defined.

(** A page after the first whose body is empty has no first line to drop:
    the run ends with IndexError. *)
Theorem get_manifest_empty_later_page
    (W : Server) (project_name : pyval) (size pages k : Z)
    (kwargs : list (string * pyval)) (texts : Z -> string) :
  1 <= k < pages ->
  (forall i, 0 <= i < k ->
             _get_manifest_once W project_name size i kwargs = Ok (texts i)) ->
  (forall i, 1 <= i < k -> splitlines (texts i) <> []) ->
  _get_manifest_once W project_name size k kwargs = Ok "" ->
  get_manifest W project_name size (Some pages) kwargs = Raise IndexError.
Proof.
  intros Hk Hget Hne Hempty. unfold get_manifest.
  replace (pages =? 0) with false by (symmetry; apply Z.eqb_neq; lia).
  cbn [bind].
  destruct (np_arange_split pages k ltac:(lia)) as [later ->].
  rewrite manifest_loop_app.
  destruct (manifest_loop_before W project_name size kwargs texts k
              ltac:(lia) Hget Hne) as [out ->].
  cbn [bind]. apply manifest_loop_empty_later_page; [lia | exact Hempty].
Qed.

Lemma get_manifest_empty_later_page_witness :
  get_manifest (Sample.server (Ok "")) (PStr "TCGA-BLCA") 2 (Some 2)
    Mock.clinical = Raise IndexError.
Proof.
  apply (get_manifest_empty_later_page (Sample.server (Ok ""))
           (PStr "TCGA-BLCA") 2 2 1 Mock.clinical Mock.page).
  - lia.
  - apply sample_first_page.
  - apply sample_no_later_page.
  - reflexivity.
Defined.

(** A constraint that fails validation fails the whole run before any page
    is asked for, with a page count given (0 or more) or not. *)
Theorem get_manifest_validates_first
    (W : Server) (project_name : pyval) (size : Z) (pages : option Z)
    (kwargs : list (string * pyval)) (e : exn) :
  _construct_filter_parameters W project_name "files" kwargs = Raise e ->
  (forall n, pages = Some n -> 0 <= n) ->
  get_manifest W project_name size pages kwargs = Raise e
  /\ _get_num_pages W project_name size kwargs = Raise e
  /\ forall page, _get_manifest_once W project_name size page kwargs = Raise e.
Proof.
  intros Hfilt Hpages.
  assert (Hnum : _get_num_pages W project_name size kwargs = Raise e).
  { unfold _get_num_pages, _construct_parameters. rewrite Hfilt. reflexivity. }
  assert (Honce : forall page,
             _get_manifest_once W project_name size page kwargs = Raise e).
  { intros page. unfold _get_manifest_once, _construct_parameters.
    rewrite Hfilt. reflexivity. }
  split; [ | split; assumption].
  unfold get_manifest. destruct pages as [n | ]; [ | rewrite Hnum; reflexivity].
  specialize (Hpages n eq_refl).
  destruct (n =? 0) eqn:Hn; [rewrite Hnum; reflexivity | ].
  apply Z.eqb_neq in Hn. cbn [bind].
  rewrite (np_arange_pos n) by lia. cbn [manifest_loop].
  rewrite Honce. reflexivity.
Qed.

Lemma get_manifest_validates_first_witness :
  get_manifest Mock.server (PStr "TCGA-BLCA") 2 (Some 3)
    [("data_category", PStr "Imaging")]
  = Raise (ValueError "At least one value given was invalid: Imaging").
Proof.
  apply (proj1 (get_manifest_validates_first Mock.server (PStr "TCGA-BLCA") 2
                  (Some 3) [("data_category", PStr "Imaging")]
                  (ValueError "At least one value given was invalid: Imaging")
                  eq_refl
                  (fun n Hn => ltac:(injection Hn as <-; lia)))).
Defined.

(** With a negative page count nothing is validated and nothing is asked
    for: the manifest is the empty string, whatever the constraints and the
    server. *)
Theorem get_manifest_negative_pages
    (W : Server) (project_name : pyval) (size pages : Z)
    (kwargs : list (string * pyval)) :
  pages < 0 -> get_manifest W project_name size (Some pages) kwargs = Ok "".
Proof.
  intros Hp. unfold get_manifest.
  replace (pages =? 0) with false by (symmetry; apply Z.eqb_neq; lia).
  cbn [bind]. rewrite np_arange_nonpositive by lia. reflexivity.
Qed.

Lemma get_manifest_negative_pages_witness :
  get_manifest Mock.server (PStr "TCGA-BLCA") 2 (Some (-1))
    [("no_such_field", PList [])] = Ok "".
Proof.
  apply (get_manifest_negative_pages Mock.server (PStr "TCGA-BLCA") 2 (-1)
           [("no_such_field", PList [])]).
  lia.
Defined.

(** When no page count is given (None or 0) and the server reports no page,
    the manifest is the empty string: not even a header line. *)
Theorem get_manifest_no_pages_reported
    (W : Server) (project_name : pyval) (size n : Z)
    (kwargs : list (string * pyval)) :
  _get_num_pages W project_name size kwargs = Ok n -> n <= 0 ->
  get_manifest W project_name size None kwargs = Ok ""
  /\ get_manifest W project_name size (Some 0) kwargs = Ok "".
Proof.
  intros Hnum Hn. unfold get_manifest. cbn [Z.eqb]. rewrite Hnum. cbn [bind].
  rewrite np_arange_nonpositive by exact Hn. split; reflexivity.
Qed.

Lemma get_manifest_no_pages_reported_witness :
  get_manifest (Sample.server (Raise (HTTPError 500))) (PStr "TCGA-BLCA") 2 None
    Mock.clinical = Ok "".
Proof.
  apply (proj1 (get_manifest_no_pages_reported
                  (Sample.server (Raise (HTTPError 500))) (PStr "TCGA-BLCA") 2 0
                  Mock.clinical eq_refl ltac:(lia))).
Defined.

(** ** Reading the assembled manifest back *)

Lemma splitlines_from_line (line rest : string) :
  no_linebreak line ->
  forall acc,
    splitlines_from acc (line ++ LF ++ rest)
    = (acc ++ line)%string :: splitlines_from "" rest.
Proof.
  unfold no_linebreak.
  induction line as [ | c line IH]; intros Hline acc.
  - rewrite string_app_empty_r.
    change ("" ++ LF ++ rest)%string with (String (ascii_of_nat 10) rest).
    cbn [splitlines_from].
    replace (is_linebreak (ascii_of_nat 10)) with true by reflexivity.
    replace (is_CR (ascii_of_nat 10)) with false by reflexivity.
    destruct rest; reflexivity.
  - cbn [list_ascii_of_string] in Hline.
    apply Forall_cons_iff in Hline. destruct Hline as [Hc Hline].
    cbn [append splitlines_from]. rewrite Hc. rewrite (IH Hline).
    rewrite string_app_assoc. reflexivity.
Qed.

Lemma splitlines_lines_text (lines : list string) :
  Forall no_linebreak lines -> splitlines (lines_text lines) = lines.
Proof.
  unfold splitlines.
  induction 1 as [ | line lines Hline _ IH]; [reflexivity | ].
  cbn [lines_text fold_right]. rewrite (splitlines_from_line line _ Hline).
  cbn [append]. f_equal. exact IH.
Qed.

(** The manifest of a run splits back into exactly the lines that were kept:
    as many lines as page 0 has, plus one less than each later page has. *)
Theorem get_manifest_lines_round_trip
    (W : Server) (project_name : pyval) (size pages : Z)
    (kwargs : list (string * pyval)) (texts : Z -> string) :
  1 <= pages ->
  (forall i, 0 <= i < pages ->
             _get_manifest_once W project_name size i kwargs = Ok (texts i)) ->
  (forall i, 1 <= i < pages -> splitlines (texts i) <> []) ->
  exists manifest,
    get_manifest W project_name size (Some pages) kwargs = Ok manifest
    /\ splitlines manifest
       = (splitlines (texts 0)
          ++ flat_map (fun i => tl (splitlines (texts i))) (later_pages pages))%list.
Proof.
  intros Hp Hget Hne.
  exists (lines_text (kept_lines texts pages)). split.
  - apply get_manifest_given_pages; assumption.
  - apply splitlines_lines_text, kept_lines_no_linebreak.
Qed.

Lemma get_manifest_lines_round_trip_witness :
  exists manifest,
    get_manifest Mock.server (PStr "TCGA-BLCA") 2 (Some 3) Mock.clinical
    = Ok manifest
    /\ splitlines manifest
       = (splitlines (Mock.page 0)
          ++ flat_map (fun i => tl (splitlines (Mock.page i))) (later_pages 3))%list.
Proof.
  apply (get_manifest_lines_round_trip Mock.server (PStr "TCGA-BLCA") 2 3
           Mock.clinical Mock.page).
  - lia.
  - apply mock_pages_fetched.
  - apply mock_pages_nonempty.
Defined.

(** ** Creating the data directory *)

Lemma cut_after_last_slash_none (p : string) :
  Forall (fun c => is_slash c = false) (list_ascii_of_string p) ->
  cut_after_last_slash p = None.
Proof.
  induction p as [ | c p IH]; intros Hp; [reflexivity | ].
  cbn [list_ascii_of_string] in Hp. apply Forall_cons_iff in Hp.
  destruct Hp as [Hc Hp]. cbn [cut_after_last_slash].
  rewrite (IH Hp), Hc. reflexivity.
Qed.

(** For a missing directory named without a slash, [os.path.split] gives an
    empty head; when the empty path does not exist, the first directory
    [_mkdir_if_not_exists] tries to create is the empty path, and the
    exception of that [os.mkdir] ends the call before the directory itself
    is tried. *)
Theorem mkdir_if_not_exists_plain_name
    (H : Host) (dir : string) (st : State) (e : exn) :
  Forall (fun c => is_slash c = false) (list_ascii_of_string dir) ->
  path_exists (disk st) dir = false ->
  path_exists (disk st) "" = false ->
  os_mkdir H "" (disk st) = Raise e ->
  os_path_split dir = ("", dir)
  /\ _mkdir_if_not_exists H dir st = (Raise e, st).
Proof.
  intros Hplain Hdir Hempty Hmk.
  assert (Hsplit : os_path_split dir = ("", dir)).
  { unfold os_path_split. rewrite (cut_after_last_slash_none dir Hplain).
    reflexivity. }
  split; [exact Hsplit | ].
  unfold _mkdir_if_not_exists, bindM, exists_M, lift. rewrite Hdir. cbn [negb].
  rewrite Hsplit. cbn [mkdir_loop]. unfold bindM, exists_M, lift.
  change (os_path_join "" [""]) with "". rewrite Hempty. cbn [negb].
  unfold mkdir. rewrite Hmk. reflexivity.
Qed.

Lemma mkdir_if_not_exists_plain_name_witness :
  os_path_split "data" = ("", "data")
  /\ _mkdir_if_not_exists Sample.host "data" (Mock.start Sample.blank_disk)
     = (Raise OSError, Mock.start Sample.blank_disk).
Proof.
  apply (mkdir_if_not_exists_plain_name Sample.host "data"
           (Mock.start Sample.blank_disk) OSError).
  - repeat constructor.
  - reflexivity.
  - reflexivity.
  - reflexivity.
Defined.

(** ** Verifier *)

(** For a row with text cells: a file name that starts with a slash is the
    whole path that is checked, so the outcome depends neither on the data
    directory nor on the id; an id that starts with a slash makes the outcome
    independent of the data directory. *)
Theorem verify_single_file_absolute_parts
    (d : Disk) (r : row) (id filename : string) :
  row_get r "id" = Ok (CStr id) ->
  row_get r "filename" = Ok (CStr filename) ->
  (starts_with_slash filename = true ->
   forall data_dir,
     _verify_download_single_file d r data_dir = Ok (path_exists d filename))
  /\ (starts_with_slash id = true ->
      starts_with_slash filename = false ->
      forall data_dir,
        _verify_download_single_file d r data_dir
        = Ok (path_exists d (os_path_join id [filename]))).
Proof.
  intros Hid Hname. split.
  - intros Hslash data_dir.
    rewrite (verify_single_file_text d r data_dir id filename Hid Hname).
    unfold os_path_join. cbn [fold_left]. rewrite Hslash. reflexivity.
  - intros Hslash Hplain data_dir.
    rewrite (verify_single_file_text d r data_dir id filename Hid Hname).
    unfold os_path_join. cbn [fold_left]. rewrite Hslash, Hplain. reflexivity.
Qed.

Lemma verify_single_file_absolute_parts_witness :
  _verify_download_single_file Mock.full_disk
    (Mock.manifest_row "u1" "/etc/hosts") "data/gdc"
  = Ok (path_exists Mock.full_disk "/etc/hosts").
Proof.
  apply (proj1 (verify_single_file_absolute_parts Mock.full_disk
                  (Mock.manifest_row "u1" "/etc/hosts") "u1" "/etc/hosts"
                  eq_refl eq_refl)).
  reflexivity.
Defined.

Lemma verify_single_file_more_paths (d d' : Disk) (r : row) (data_dir : string) :
  (forall p, path_exists d p = true -> path_exists d' p = true) ->
  _verify_download_single_file d r data_dir = Ok true ->
  _verify_download_single_file d' r data_dir = Ok true.
Proof.
  intros Hmore. unfold _verify_download_single_file.
  destruct (row_get r "id") as [id | e]; [ | intros Hok; discriminate Hok].
  destruct (row_get r "filename") as [filename | e];
    [ | intros Hok; discriminate Hok].
  cbn [bind].
  destruct (os_path_join_cells data_dir [id; filename]) as [file_name | e];
    [ | intros Hok; discriminate Hok].
  cbn [bind]. intros Hok. injection Hok as Hok. rewrite (Hmore _ Hok). reflexivity.
Qed.

(** Verification only looks for files: on a disk that reads the same
    manifest and holds every path the first disk holds, a download that
    verified still verifies. *)
Theorem verify_download_monotone
    (d d' : Disk) (manifest_file data_dir : string) :
  read_table d' manifest_file = read_table d manifest_file ->
  (forall p, path_exists d p = true -> path_exists d' p = true) ->
  verify_download d manifest_file data_dir = Ok true ->
  verify_download d' manifest_file data_dir = Ok true.
Proof.
  intros Hread Hmore Hok.
  apply verify_download_true_iff in Hok. destruct Hok as [rows [Hrows Hall]].
  apply verify_download_true_iff. exists rows. split.
  - rewrite Hread. exact Hrows.
  - intros r Hr. apply (verify_single_file_more_paths d d' r data_dir Hmore).
    apply Hall, Hr.
Qed.

Lemma verify_download_monotone_witness :
  verify_download (Mock.add_path "data/gdc/u9/z.xml" Mock.full_disk)
    Mock.manifest_path "data/gdc" = Ok true.
Proof.
  apply (verify_download_monotone Mock.full_disk
           (Mock.add_path "data/gdc/u9/z.xml" Mock.full_disk)
           Mock.manifest_path "data/gdc").
  - reflexivity.
  - intros p Hp. simpl. destruct (p =? "data/gdc/u9/z.xml")%string;
      [reflexivity | exact Hp].
  - reflexivity.
Defined.

(** ** Downloader *)

(** A run whose directory step and manifest succeed: the client is started
    once on the disk that holds the manifest file; the outcome is the
    client's failure, or CalledProcessError for a non-zero status, or what
    the verifier finds on the disk the client left; the manifest file is
    removed at the end. *)
Lemma download_files_run (W : Server) (H : Host)
    (project_name data_category : pyval) (page_size : Z)
    (max_pages : option Z) (data_dir : string)
    (kwargs : list (string * pyval)) (st st1 : State)
    (contents : string) (started : result Z) (d2 : Disk) :
  _mkdir_if_not_exists H data_dir st = (Ok tt, st1) ->
  get_manifest W project_name page_size max_pages
    (("data_category", data_category) :: kwargs) = Ok contents ->
  run_process H (download_command (tmp_name H)) data_dir
    (put_file (tmp_name H) (pd_parse H contents)
       (put_file (tmp_name H) (pd_parse H "") (disk st1))) = (started, d2) ->
  _download_files W H project_name data_category page_size max_pages data_dir
    kwargs st
  = (match started with
     | Ok status =>
         if status =? 0
         then bind (verify_download d2 (tmp_name H) data_dir) (fun _ => Ok true)
         else Raise (CalledProcessError status)
     | Raise e => Raise e
     end,
     {| disk := remove_file (tmp_name H) d2;
        invocations := (invocations st1
                        ++ [(download_command (tmp_name H), data_dir)])%list |}).
Proof.
  intros Hmk Hmanifest Hrun.
  unfold _download_files. unfold bindM at 1. rewrite Hmk.
  unfold bindM at 1. unfold lift at 1. rewrite Hmanifest.
  unfold bindM, try_finally, modify_disk, lift, subprocess_check_call,
    subprocess_call, bindM, ret, raiseM, set_disk.
  cbn [disk invocations]. rewrite Hrun.
  destruct started as [status | e]; [ | reflexivity].
  destruct (status =? 0); cbn [negb]; [ | reflexivity].
  rewrite Z.eqb_refl. cbn [negb disk].
  destruct (verify_download d2 (tmp_name H) data_dir); reflexivity.
Qed.

(** Once the manifest is built, the temporary manifest file is gone at the
    end of the run, whether the client fails to start, exits with an error,
    the verification fails, or all succeeds. *)
Theorem download_files_removes_manifest_file
    (W : Server) (H : Host) (project_name data_category : pyval)
    (page_size : Z) (max_pages : option Z) (data_dir : string)
    (kwargs : list (string * pyval)) (st st1 : State) (contents : string) :
  _mkdir_if_not_exists H data_dir st = (Ok tt, st1) ->
  get_manifest W project_name page_size max_pages
    (("data_category", data_category) :: kwargs) = Ok contents ->
  path_exists
    (disk (snd (_download_files W H project_name data_category page_size
                  max_pages data_dir kwargs st)))
    (tmp_name H) = false.
Proof.
  intros Hmk Hmanifest.
  destruct (run_process H (download_command (tmp_name H)) data_dir
              (put_file (tmp_name H) (pd_parse H contents)
                 (put_file (tmp_name H) (pd_parse H "") (disk st1))))
    as [started d2] eqn:Hrun.
  rewrite (download_files_run W H project_name data_category page_size max_pages
             data_dir kwargs st st1 contents started d2 Hmk Hmanifest Hrun).
  cbn [snd disk remove_file path_exists]. rewrite String.eqb_refl. reflexivity.
Qed.

Lemma download_files_removes_manifest_file_witness :
  path_exists
    (disk (snd (_download_files Mock.server (Mock.host 1) (PStr "TCGA-BLCA")
                  (PStr "Clinical") 2 (Some 1) "data/gdc" []
                  (Mock.start Mock.empty_disk))))
    "/tmp/tmpmanifest" = false.
Proof.
  apply (download_files_removes_manifest_file Mock.server (Mock.host 1)
           (PStr "TCGA-BLCA") (PStr "Clinical") 2 (Some 1) "data/gdc" []
           (Mock.start Mock.empty_disk) (Mock.start Mock.empty_disk)
           (Mock.page 0)).
  - reflexivity.
  - reflexivity.
Defined.

(** A failure of the directory step or of the manifest is the result of the
    run: the client is not started and no manifest file is written (the
    state is the one the directory step left). *)
Theorem download_files_early_failure
    (W : Server) (H : Host) (project_name data_category : pyval)
    (page_size : Z) (max_pages : option Z) (data_dir : string)
    (kwargs : list (string * pyval)) (st st1 : State) (e : exn) :
  (_mkdir_if_not_exists H data_dir st = (Raise e, st1)
   \/ (_mkdir_if_not_exists H data_dir st = (Ok tt, st1)
       /\ get_manifest W project_name page_size max_pages
            (("data_category", data_category) :: kwargs) = Raise e)) ->
  _download_files W H project_name data_category page_size max_pages data_dir
    kwargs st = (Raise e, st1)
  /\ invocations st1 = invocations st.
Proof.
  intros Hearly.
  assert (Hlog : invocations st1 = invocations st).
  { pose proof (mkdir_if_not_exists_invocations H data_dir st) as Hmk.
    destruct Hearly as [Hfail | [Hok _]];
      [rewrite Hfail in Hmk | rewrite Hok in Hmk]; exact Hmk. }
  split; [ | exact Hlog].
  unfold _download_files. unfold bindM at 1.
  destruct Hearly as [Hfail | [Hok Hmanifest]].
  - rewrite Hfail. reflexivity.
  - rewrite Hok. unfold bindM at 1. unfold lift at 1. rewrite Hmanifest.
    reflexivity.
Qed.

Lemma download_files_early_failure_witness :
  _download_files Mock.server (Mock.host 0) (PStr "TCGA-BLCA") (PStr "Imaging") 2
    (Some 1) "data/gdc" [] (Mock.start Mock.full_disk)
  = (Raise (ValueError "At least one value given was invalid: Imaging"),
     Mock.start Mock.full_disk)
  /\ invocations (Mock.start Mock.full_disk)
     = invocations (Mock.start Mock.full_disk).
Proof.
  apply (download_files_early_failure Mock.server (Mock.host 0) (PStr "TCGA-BLCA")
           (PStr "Imaging") 2 (Some 1) "data/gdc" [] (Mock.start Mock.full_disk)
           (Mock.start Mock.full_disk)).
  right. split; reflexivity.
Defined.

(** A run returns only True, and only after it started the client exactly
    once; the manifest file is gone by then. *)
Theorem download_files_success_started_once
    (W : Server) (H : Host) (project_name data_category : pyval)
    (page_size : Z) (max_pages : option Z) (data_dir : string)
    (kwargs : list (string * pyval)) (st st' : State) (b : bool) :
  _download_files W H project_name data_category page_size max_pages data_dir
    kwargs st = (Ok b, st') ->
  b = true
  /\ invocations st'
     = (invocations st ++ [(download_command (tmp_name H), data_dir)])%list
  /\ path_exists (disk st') (tmp_name H) = false.
Proof.
  intros Hrun.
  pose proof (mkdir_if_not_exists_invocations H data_dir st) as Hlog.
  destruct (_mkdir_if_not_exists H data_dir st) as [[[] | e] st1] eqn:Hmk;
    cbn [snd] in Hlog.
  - destruct (get_manifest W project_name page_size max_pages
                (("data_category", data_category) :: kwargs))
      as [contents | e] eqn:Hmanifest.
    + destruct (run_process H (download_command (tmp_name H)) data_dir
                  (put_file (tmp_name H) (pd_parse H contents)
                     (put_file (tmp_name H) (pd_parse H "") (disk st1))))
        as [started d2] eqn:Hclient.
      rewrite (download_files_run W H project_name data_category page_size
                 max_pages data_dir kwargs st st1 contents started d2
                 Hmk Hmanifest Hclient) in Hrun.
      injection Hrun as Hresult <-. rewrite Hlog.
      cbn [disk invocations remove_file path_exists]. rewrite String.eqb_refl.
      repeat split.
      destruct started as [status | e]; [ | discriminate Hresult].
      destruct (status =? 0); [ | discriminate Hresult].
      destruct (verify_download d2 (tmp_name H) data_dir);
        [injection Hresult as <-; reflexivity | discriminate Hresult].
    + unfold _download_files in Hrun. unfold bindM at 1 in Hrun.
      rewrite Hmk in Hrun. unfold bindM at 1 in Hrun. unfold lift at 1 in Hrun.
      rewrite Hmanifest in Hrun. discriminate Hrun.
  - unfold _download_files in Hrun. unfold bindM at 1 in Hrun.
    rewrite Hmk in Hrun. discriminate Hrun.
Qed.

Lemma download_files_success_started_once_witness :
  true = true
  /\ invocations
       (snd (_download_files Mock.server Sample.host (PStr "TCGA-BLCA")
               (PStr "Clinical") 2 (Some 1) "data/gdc" []
               (Mock.start Mock.empty_disk)))
     = (invocations (Mock.start Mock.empty_disk)
        ++ [(download_command (tmp_name Sample.host), "data/gdc")])%list
  /\ path_exists
       (disk (snd (_download_files Mock.server Sample.host (PStr "TCGA-BLCA")
                     (PStr "Clinical") 2 (Some 1) "data/gdc" []
                     (Mock.start Mock.empty_disk))))
       (tmp_name Sample.host) = false.
Proof.
  apply (download_files_success_started_once Mock.server Sample.host
           (PStr "TCGA-BLCA") (PStr "Clinical") 2 (Some 1) "data/gdc" []
           (Mock.start Mock.empty_disk)).
  reflexivity.
Defined.

(** When the client exits with status 0, the run returns True exactly when
    the verifier accepts the disk the client left, and fails with the
    verifier's exception otherwise. *)
Theorem download_files_result_is_verification
    (W : Server) (H : Host) (project_name data_category : pyval)
    (page_size : Z) (max_pages : option Z) (data_dir : string)
    (kwargs : list (string * pyval)) (st st1 : State)
    (contents : string) (d2 : Disk) :
  _mkdir_if_not_exists H data_dir st = (Ok tt, st1) ->
  get_manifest W project_name page_size max_pages
    (("data_category", data_category) :: kwargs) = Ok contents ->
  run_process H (download_command (tmp_name H)) data_dir
    (put_file (tmp_name H) (pd_parse H contents)
       (put_file (tmp_name H) (pd_parse H "") (disk st1))) = (Ok 0, d2) ->
  (fst (_download_files W H project_name data_category page_size max_pages
          data_dir kwargs st) = Ok true
   <-> verify_download d2 (tmp_name H) data_dir = Ok true)
  /\ (forall e, verify_download d2 (tmp_name H) data_dir = Raise e ->
                fst (_download_files W H project_name data_category page_size
                       max_pages data_dir kwargs st) = Raise e).
Proof.
  intros Hmk Hmanifest Hclient.
  rewrite (download_files_run W H project_name data_category page_size max_pages
             data_dir kwargs st st1 contents (Ok 0) d2 Hmk Hmanifest Hclient).
  cbn [fst Z.eqb]. split.
  - destruct (verify_download d2 (tmp_name H) data_dir) as [[ | ] | e] eqn:Hver;
      cbn [bind].
    + split; reflexivity.
    + exfalso. exact (verify_download_not_false d2 (tmp_name H) data_dir Hver).
    + split; intros Hv; discriminate Hv.
  - intros e He. rewrite He. reflexivity.
Qed.

Lemma download_files_result_is_verification_witness :
  fst (_download_files Mock.server (Mock.host 0) (PStr "TCGA-BLCA")
         (PStr "Clinical") 2 (Some 1) "data/gdc" [] (Mock.start Mock.empty_disk))
  = Raise (ValueError "Some files failed to download.").
Proof.
  apply (proj2 (download_files_result_is_verification Mock.server (Mock.host 0)
                  (PStr "TCGA-BLCA") (PStr "Clinical") 2 (Some 1) "data/gdc" []
                  (Mock.start Mock.empty_disk) (Mock.start Mock.empty_disk)
                  (Mock.page 0)
                  (put_file "/tmp/tmpmanifest" (Ok Mock.rows)
                     (put_file "/tmp/tmpmanifest"
                        (Raise (ValueError "No columns to parse from file"))
                        Mock.empty_disk))
                  eq_refl eq_refl eq_refl)).
  reflexivity.
Defined.

(** ** The project name and the page count *)

Lemma filter_loop_accumulator (W : Server) (endpoint_name : string)
    (kwargs : list (string * pyval)) :
  forall content_filters,
    filter_loop W endpoint_name kwargs content_filters
    = bind (filter_loop W endpoint_name kwargs [])
        (fun added => Ok (content_filters ++ added)%list).
Proof.
  induction kwargs as [ | [field x] rest IH]; intros content_filters.
  - simpl. rewrite app_nil_r. reflexivity.
  - cbn [filter_loop].
    destruct (_convert_to_list x) as [data_list | e]; [ | reflexivity].
    cbn [bind].
    destruct (_verify_field_values W data_list (endpoint_name ++ "." ++ field)
                endpoint_name PNone) as [b | e]; [ | reflexivity].
    cbn [bind]. rewrite IH. rewrite (IH ([] ++ _)%list).
    destruct (filter_loop W endpoint_name rest []) as [added | e];
      [ | reflexivity].
    cbn [bind app]. rewrite <- app_assoc. reflexivity.
Qed.

(** The project name is neither validated nor used in validating the
    constraints: with another project the builder fails with the same
    exception, or returns the same leaves after the other project leaf. *)
Theorem construct_filter_project_independent
    (W : Server) (project_name other : pyval) (endpoint_name : string)
    (kwargs : list (string * pyval)) :
  (forall e,
      _construct_filter_parameters W project_name endpoint_name kwargs = Raise e ->
      _construct_filter_parameters W other endpoint_name kwargs = Raise e)
  /\ (forall leaves,
         _construct_filter_parameters W project_name endpoint_name kwargs
         = Ok (FAnd (FIn "cases.project.project_id" (PList [project_name])
                     :: leaves)) ->
         _construct_filter_parameters W other endpoint_name kwargs
         = Ok (FAnd (FIn "cases.project.project_id" (PList [other]) :: leaves))).
Proof.
  unfold _construct_filter_parameters.
  rewrite (filter_loop_accumulator W endpoint_name kwargs
             [FIn "cases.project.project_id" (PList [project_name])]).
  rewrite (filter_loop_accumulator W endpoint_name kwargs
             [FIn "cases.project.project_id" (PList [other])]).
  destruct (filter_loop W endpoint_name kwargs []) as [added | e0]; cbn [bind app].
  - split; [intros e He; discriminate He | ].
    intros leaves Hok. injection Hok as ->. reflexivity.
  - split; [intros e He; exact He | intros leaves Hok; discriminate Hok].
Qed.

Lemma construct_filter_project_independent_witness :
  _construct_filter_parameters Mock.server (PStr "TCGA-LUAD") "files" Mock.clinical
  = Ok (FAnd [FIn "cases.project.project_id" (PList [PStr "TCGA-LUAD"]);
              FIn "files.data_category" (PList [PStr "Clinical"])]).
Proof.
  apply (proj2 (construct_filter_project_independent Mock.server
                  (PStr "TCGA-BLCA") (PStr "TCGA-LUAD") "files" Mock.clinical)
           [FIn "files.data_category" (PList [PStr "Clinical"])]).
  reflexivity.
Defined.

(** With a valid field name and the field's values listed,
    [_verify_field_values] returns True exactly when every value of a
    non-empty list is among the listed ones; when the listing fails, its
    exception is the result. *)
Theorem verify_field_values_true_iff
    (W : Server) (l : list pyval) (field_name endpoint_name : string)
    (project_name : pyval) :
  _verify_field_name W field_name endpoint_name = Ok true ->
  l <> [] ->
  (forall domain,
      _list_valid_options W field_name endpoint_name project_name true = Ok domain ->
      (_verify_field_values W (PList l) field_name endpoint_name project_name
       = Ok true
       <-> forall el, In el l -> py_in el domain = true))
  /\ (forall e,
         _list_valid_options W field_name endpoint_name project_name true = Raise e ->
         _verify_field_values W (PList l) field_name endpoint_name project_name
         = Raise e).
Proof.
  intros Hname Hne. unfold _verify_field_values. rewrite Hname. cbn [bind]. split.
  - intros domain ->. cbn [bind]. unfold _verify_data_list.
    rewrite (convert_to_list_nonempty_list l Hne). cbn [bind py_iter].
    destruct (forallb (fun el => py_in el domain) l) eqn:Hall; cbn [negb].
    + rewrite forallb_forall in Hall. split; [intros _; exact Hall | reflexivity].
    + split.
      * intros Hok.
        destruct (py_join ", " (filter (fun el => negb (py_in el domain)) l));
          discriminate Hok.
      * intros Hforall. apply forallb_forall in Hforall. congruence.
  - intros e ->. reflexivity.
Qed.

Lemma verify_field_values_true_iff_witness :
  _verify_field_values Mock.server (PList [PStr "Biospecimen"; PStr "Clinical"])
    "files.data_category" "files" PNone = Ok true
  <-> forall el, In el [PStr "Biospecimen"; PStr "Clinical"] ->
                 py_in el [PStr "Clinical"; PStr "Biospecimen"] = true.
Proof.
  apply (proj1 (verify_field_values_true_iff Mock.server
                  [PStr "Biospecimen"; PStr "Clinical"] "files.data_category"
                  "files" PNone eq_refl ltac:(discriminate))
           [PStr "Clinical"; PStr "Biospecimen"]).
  reflexivity.
Defined.

Lemma manifest_loop_with_pagination (W : Server)
    (answer : filter_expr -> Z -> result Z) (project_name : pyval) (size : Z)
    (kwargs : list (string * pyval)) (pages : list Z) :
  forall output,
    manifest_loop (with_pagination W answer) project_name size kwargs pages output
    = manifest_loop W project_name size kwargs pages output.
Proof.
  assert (Hloop : forall kw acc,
             filter_loop (with_pagination W answer) "files" kw acc
             = filter_loop W "files" kw acc).
  { induction kw as [ | [field x] rest IH]; intros acc; [reflexivity | ].
    cbn [filter_loop].
    destruct (_convert_to_list x) as [data_list | e]; [ | reflexivity].
    cbn [bind].
    change (_verify_field_values (with_pagination W answer) data_list
              ("files" ++ "." ++ field) "files" PNone)
      with (_verify_field_values W data_list ("files" ++ "." ++ field) "files"
              PNone).
    destruct (_verify_field_values W data_list ("files" ++ "." ++ field) "files"
                PNone) as [b | e]; [ | reflexivity].
    cbn [bind]. apply IH. }
  assert (Honce : forall page,
             _get_manifest_once (with_pagination W answer) project_name size page
               kwargs
             = _get_manifest_once W project_name size page kwargs).
  { intros page. unfold _get_manifest_once, _construct_parameters,
      _construct_filter_parameters. rewrite Hloop. reflexivity. }
  induction pages as [ | page rest IH]; intros output; [reflexivity | ].
  cbn [manifest_loop]. rewrite Honce.
  destruct (_get_manifest_once W project_name size page kwargs) as [text | e];
    [ | reflexivity].
  cbn [bind].
  destruct (if page >? 0 then del_first (splitlines text) else Ok (splitlines text))
    as [response_text | e]; [ | reflexivity].
  cbn [bind]. apply IH.
Qed.

(** With a page count other than 0 the server is never asked for the number
    of pages: whatever it would answer to that request, the manifest is the
    same. *)
Theorem get_manifest_given_count_not_asked
    (W : Server) (answer : filter_expr -> Z -> result Z) (project_name : pyval)
    (size pages : Z) (kwargs : list (string * pyval)) :
  pages <> 0 ->
  get_manifest (with_pagination W answer) project_name size (Some pages) kwargs
  = get_manifest W project_name size (Some pages) kwargs.
Proof.
  intros Hp. unfold get_manifest.
  replace (pages =? 0) with false by (symmetry; apply Z.eqb_neq; exact Hp).
  cbn [bind]. apply manifest_loop_with_pagination.
Qed.

Lemma get_manifest_given_count_not_asked_witness :
  get_manifest (with_pagination Mock.server (fun _ _ => Raise (HTTPError 500)))
    (PStr "TCGA-BLCA") 2 (Some 3) Mock.clinical
  = get_manifest Mock.server (PStr "TCGA-BLCA") 2 (Some 3) Mock.clinical.
Proof.
  apply (get_manifest_given_count_not_asked Mock.server
           (fun _ _ => Raise (HTTPError 500)) (PStr "TCGA-BLCA") 2 3 Mock.clinical).
  lia.
Defined.
